(** * multilsp: a shallow embedding of the protocol-client engine

    The development follows the Python sources of the [multilsp] package:
    - [servers/base.py]: [BaseLanguageServerManager] (framing reader,
      response correlation, notification handling, definition and reference
      lookups);
    - [servers/python_server.py], [servers/javascript_server.py]: the two
      concrete managers (start, formatter with its edit applier and its
      fallback subprocess);
    - [service.py]: [MultiLanguageServer] (routing by file extension);
    - [utils/workspace.py]: [WorkspaceManager]; [cli.py]: [main]; the
      linters of the managers.

    Python values are modelled as follows.  Integers are [Z].  A [str] and a
    [bytes] value are a [string], one [ascii] per code point or byte, so text
    is limited to code points below 256.  Dictionaries keyed by strings are
    [gmap string _]; a JSON object keeps its members in a list.  Exceptions are a value
    of [result].  The reader thread is modelled by explicit delivery steps on
    the frames the backend has written. *)

From Stdlib Require Import ZArith Ascii String.
From stdpp Require Import base option numbers strings list gmap pretty.

Set Warnings "-register-all".
Open Scope Z_scope.

(** ** Python primitives *)

Module Py.

(** Exceptions the modelled code can raise. [OSError] stands for whatever
    [subprocess.Popen], [subprocess.run] or [open] raise. *)
Inductive exn :=
| KeyError (key : string)
| AttributeError (name : string)
| ValueError (msg : string)
| TypeError (msg : string)
| IndexError
| OSError (msg : string).

Inductive result (A : Type) :=
| Ret (a : A)
| Raise (e : exn).
Arguments Ret {A} a.
Arguments Raise {A} e.

Definition bind {A B} (r : result A) (k : A -> result B) : result B :=
  match r with
  | Ret a => k a
  | Raise e => Raise e
  end.

(** [try: r except Exception: h] *)
Definition try_except {A} (r : result A) (h : exn -> result A) : result A :=
  match r with
  | Ret a => Ret a
  | Raise e => h e
  end.

Definition raises {A} (r : result A) : Prop :=
  match r with
  | Ret _ => False
  | Raise _ => True
  end.

(** [str(n)] for an [int]. *)
Definition str_int (n : Z) : string := pretty n.
#[global] Arguments str_int : simpl never.

(** [len(s)] *)
Definition len (s : string) : Z := Z.of_nat (String.length s).

Fixpoint take_chars (n : nat) (s : string) : string :=
  match n, s with
  | S n', String c s' => String c (take_chars n' s')
  | _, _ => EmptyString
  end.

Fixpoint drop_chars (n : nat) (s : string) : string :=
  match n, s with
  | S n', String _ s' => drop_chars n' s'
  | _, _ => s
  end.

(** [s[:a]] with Python's treatment of negative and out-of-range bounds. *)
Definition slice_to (s : string) (a : Z) : string :=
  if a <? 0 then take_chars (Z.to_nat (len s + a)) s
  else take_chars (Z.to_nat a) s.

(** [s[b:]] *)
Definition slice_from (s : string) (b : Z) : string :=
  if b <? 0 then drop_chars (Z.to_nat (len s + b)) s
  else drop_chars (Z.to_nat b) s.

(** [s.startswith(prefix)] *)
Fixpoint startswith (s prefix : string) : bool :=
  match prefix, s with
  | EmptyString, _ => true
  | String p prefix', String c s' => bool_decide (p = c) && startswith s' prefix'
  | String _ _, EmptyString => false
  end.

Definition LF : ascii := "010"%char.
Definition CR : ascii := "013"%char.

(** [c in s] for a one-character [c]. *)
Fixpoint contains (c : ascii) (s : string) : bool :=
  match s with
  | EmptyString => false
  | String x s' => bool_decide (x = c) || contains c s'
  end.

(** Line boundaries of [str.splitlines] below code point 256: LF, VT, FF,
    CR, FS, GS, RS, NEL (CR LF counts as one). *)
Definition is_linebreak (c : ascii) : bool :=
  match N_of_ascii c with
  | 10 | 11 | 12 | 13 | 28 | 29 | 30 | 133 => true
  | _ => false
  end%N.

(** [s.splitlines(True)]: [cur] is the current line, reversed. *)
Fixpoint splitlines_aux (cur : string) (s : string) : list string :=
  match s with
  | EmptyString =>
      match cur with
      | EmptyString => []
      | _ => [String.rev cur]
      end
  | String c rest =>
      if is_linebreak c then
        match rest with
        | String c' rest' =>
            if bool_decide (c = CR) && bool_decide (c' = LF)
            then String.rev (String c' (String c cur)) :: splitlines_aux EmptyString rest'
            else String.rev (String c cur) :: splitlines_aux EmptyString rest
        | EmptyString => [String.rev (String c cur)]
        end
      else splitlines_aux (String c cur) rest
  end.

Definition splitlines_keepends (s : string) : list string :=
  splitlines_aux EmptyString s.

(** [s.rfind(c)] for a one-character [c], counting from index [i]; [-1] when
    [c] does not occur. *)
Fixpoint rfind_from (i : Z) (c : ascii) (s : string) : Z :=
  match s with
  | EmptyString => -1
  | String x s' =>
      let later := rfind_from (i + 1) c s' in
      if 0 <=? later then later
      else if bool_decide (x = c) then i else -1
  end.

Definition rfind (s : string) (c : ascii) : Z := rfind_from 0 c s.

(** Whether some character of [s] differs from [c]. *)
Fixpoint some_char_not (c : ascii) (s : string) : bool :=
  match s with
  | EmptyString => false
  | String x s' => negb (bool_decide (x = c)) || some_char_not c s'
  end.

(** [os.path.splitext(p)] on POSIX: the extension starts at the last dot of
    the last path component, leading dots of that component not counting. *)
Definition splitext (p : string) : string * string :=
  let sepIndex := rfind p "/" in
  let dotIndex := rfind p "." in
  if (sepIndex <? dotIndex)
     && some_char_not "." (slice_to (slice_from p (sepIndex + 1)) (dotIndex - (sepIndex + 1)))
  then (slice_to p dotIndex, slice_from p dotIndex)
  else (p, EmptyString).

(** [c.lower()] below code point 256. *)
Definition lower_char (c : ascii) : ascii :=
  let n := N_of_ascii c in
  if ((65 <=? n) && (n <=? 90)
      || (192 <=? n) && (n <=? 222) && negb (n =? 215))%N
  then ascii_of_N (n + 32) else c.

Fixpoint lower (s : string) : string :=
  match s with
  | EmptyString => EmptyString
  | String c s' => String (lower_char c) (lower s')
  end.

(** [sorted(l, key=key)]: a stable sort on integer keys, here by insertion. *)
Fixpoint insert_by_key {A} (key : A -> Z) (x : A) (l : list A) : list A :=
  match l with
  | [] => [x]
  | y :: l' =>
      if key y <=? key x then y :: insert_by_key key x l'
      else x :: l
  end.

Definition sorted {A} (l : list A) (key : A -> Z) : list A :=
  foldr (fun x acc => insert_by_key key x acc) [] (rev l).

End Py.

(** ** JSON values and protocol messages *)

Module Json.
Import Py.

(** What [json.loads] produces, floats left out. A [dict] keeps its keys in
    a list; lookups take the first binding. *)
Inductive json :=
| JNull
| JBool (b : bool)
| JInt (n : Z)
| JStr (s : string)
| JList (l : list json)
| JDict (d : list (string * json)).

Fixpoint dict_get (d : list (string * json)) (k : string) : option json :=
  match d with
  | [] => None
  | (k', v) :: d' => if bool_decide (k' = k) then Some v else dict_get d' k
  end.

(** [v.get(k, dflt)]: only a dict has a [get] attribute. *)
Definition get (v : json) (k : string) (dflt : json) : result json :=
  match v with
  | JDict d => Ret (default dflt (dict_get d k))
  | _ => Raise (AttributeError "get")
  end.

(** [v[k]] with a string key. *)
Definition getitem (v : json) (k : string) : result json :=
  match v with
  | JDict d =>
      match dict_get d k with
      | Some x => Ret x
      | None => Raise (KeyError k)
      end
  | _ => Raise (TypeError "indices")
  end.

(** Python truthiness, [if v:]. *)
Definition truthy (v : json) : bool :=
  match v with
  | JNull => false
  | JBool b => b
  | JInt n => negb (n =? 0)
  | JStr s => negb (bool_decide (s = ""))
  | JList l => match l with [] => false | _ => true end
  | JDict d => match d with [] => false | _ => true end
  end.

(** [v == s] for a string literal [s]. *)
Definition eq_str (v : json) (s : string) : bool :=
  match v with
  | JStr x => bool_decide (x = s)
  | _ => false
  end.

(** The [id] member of a message: a number, a string or null. *)
Inductive rpc_id :=
| IdInt (n : Z)
| IdStr (s : string)
| IdNull.

(** [str(message["id"])] *)
Definition str_id (i : rpc_id) : string :=
  match i with
  | IdInt n => str_int n
  | IdStr s => s
  | IdNull => "None"
  end.

(** A decoded message: the members the engine looks at, each present or
    absent. The empty dict [{}] is [empty_message]. *)
Record message := Message {
  msg_id : option rpc_id;
  msg_method : option json;
  msg_params : option json;
  msg_result : option json;
  msg_error : option json
}.

Definition empty_message : message := Message None None None None None.

(** [{"jsonrpc": "2.0", "id": request_id, "method": method, "params": params}] *)
Definition request (request_id method : string) (params : json) : message :=
  Message (Some (IdStr request_id)) (Some (JStr method)) (Some params) None None.

(** [{"jsonrpc": "2.0", "method": method, "params": params}] *)
Definition notification (method : string) (params : json) : message :=
  Message None (Some (JStr method)) (Some params) None None.

(** ["k" in message] *)
Definition has {A} (member : option A) : bool :=
  match member with
  | Some _ => true
  | None => false
  end.

End Json.

(** ** [BaseLanguageServerManager]: correlation and notifications *)

Module Session.
Import Py Json.

(** [logging] levels used by the managers. *)
Inductive log_level := ERROR | WARNING | INFO | DEBUG.

(** A log record: the level and the call site with its interpolated values. *)
Inductive log_event :=
| LspServerSays (payload : json)
| TimeoutWaiting (method : string)
| ReaderError (e : exn)
| Note (text : string)
| Failure (text : string)
| Caught (text : string) (e : exn).

(** State of the child process as [poll()] reports it. *)
Inductive process :=
| Alive
| Exited (returncode : Z).

(** The concrete manager classes. *)
Inductive backend := Python | JavaScript | Java.

(** The [language] property of each class. *)
Definition language_of (k : backend) : string :=
  match k with
  | Python => "python"
  | JavaScript => "javascript"
  | Java => "java"
  end.

(** A registered completion callback, by name: a call is recorded in
    [invoked], what the callable does is left out. *)
Definition callback := string.

(** The manager object. [invoked] and [log] record effects; [inbox] holds the
    frames the backend has written and the reader thread has not processed;
    [schedule] lists, for each forthcoming blocking wait, the frames the
    backend writes before that wait's deadline; [write_queue] keeps every
    message put for the writer thread, in order. *)
Record manager := Manager {
  kind : backend;
  workspace_path : string;
  server_process : option process;
  request_callbacks : gmap string callback;
  next_request_id : Z;
  response_queue : list message;
  write_queue : list message;
  running : bool;
  reader_alive : bool;
  inbox : list message;
  schedule : list (list message);
  invoked : list (callback * message);
  log : list (log_level * log_event)
}.

Definition language (st : manager) : string := language_of (kind st).

Definition set_server_process (x : option process) (st : manager) : manager :=
  Manager (kind st) (workspace_path st) x (request_callbacks st)
    (next_request_id st) (response_queue st) (write_queue st) (running st)
    (reader_alive st) (inbox st) (schedule st) (invoked st) (log st).

Definition set_request_callbacks (x : gmap string callback) (st : manager) : manager :=
  Manager (kind st) (workspace_path st) (server_process st) x
    (next_request_id st) (response_queue st) (write_queue st) (running st)
    (reader_alive st) (inbox st) (schedule st) (invoked st) (log st).

Definition set_next_request_id (x : Z) (st : manager) : manager :=
  Manager (kind st) (workspace_path st) (server_process st)
    (request_callbacks st) x (response_queue st) (write_queue st) (running st)
    (reader_alive st) (inbox st) (schedule st) (invoked st) (log st).

Definition set_response_queue (x : list message) (st : manager) : manager :=
  Manager (kind st) (workspace_path st) (server_process st)
    (request_callbacks st) (next_request_id st) x (write_queue st)
    (running st) (reader_alive st) (inbox st) (schedule st) (invoked st)
    (log st).

Definition set_write_queue (x : list message) (st : manager) : manager :=
  Manager (kind st) (workspace_path st) (server_process st)
    (request_callbacks st) (next_request_id st) (response_queue st) x
    (running st) (reader_alive st) (inbox st) (schedule st) (invoked st)
    (log st).

Definition set_running (x : bool) (st : manager) : manager :=
  Manager (kind st) (workspace_path st) (server_process st)
    (request_callbacks st) (next_request_id st) (response_queue st)
    (write_queue st) x (reader_alive st) (inbox st) (schedule st) (invoked st)
    (log st).

Definition set_reader_alive (x : bool) (st : manager) : manager :=
  Manager (kind st) (workspace_path st) (server_process st)
    (request_callbacks st) (next_request_id st) (response_queue st)
    (write_queue st) (running st) x (inbox st) (schedule st) (invoked st)
    (log st).

Definition set_inbox (x : list message) (st : manager) : manager :=
  Manager (kind st) (workspace_path st) (server_process st)
    (request_callbacks st) (next_request_id st) (response_queue st)
    (write_queue st) (running st) (reader_alive st) x (schedule st)
    (invoked st) (log st).

Definition set_schedule (x : list (list message)) (st : manager) : manager :=
  Manager (kind st) (workspace_path st) (server_process st)
    (request_callbacks st) (next_request_id st) (response_queue st)
    (write_queue st) (running st) (reader_alive st) (inbox st) x (invoked st)
    (log st).

Definition set_invoked (x : list (callback * message)) (st : manager) : manager :=
  Manager (kind st) (workspace_path st) (server_process st)
    (request_callbacks st) (next_request_id st) (response_queue st)
    (write_queue st) (running st) (reader_alive st) (inbox st) (schedule st) x
    (log st).

Definition add_log (lvl : log_level) (ev : log_event) (st : manager) : manager :=
  Manager (kind st) (workspace_path st) (server_process st)
    (request_callbacks st) (next_request_id st) (response_queue st)
    (write_queue st) (running st) (reader_alive st) (inbox st) (schedule st)
    (invoked st) (log st ++ [(lvl, ev)]).

(** [BaseLanguageServerManager.__init__] *)
Definition init (k : backend) (workspace : string) : manager :=
  Manager k workspace None ∅ 1 [] [] false false [] [] [] [].

(** [self.server_process is not None and self.server_process.poll() is None] *)
Definition is_running (st : manager) : bool :=
  match server_process st with
  | Some Alive => true
  | _ => false
  end.

(** [log_levels.get(message_type, logging.INFO)] on the table
    [{1: ERROR, 2: WARNING, 3: INFO, 4: DEBUG}]: [True] equals and hashes
    like [1]; a list or dict key is unhashable. *)
Definition log_levels_get (message_type : json) : result log_level :=
  match message_type with
  | JInt 1 => Ret ERROR
  | JInt 2 => Ret WARNING
  | JInt 3 => Ret INFO
  | JInt 4 => Ret DEBUG
  | JBool true => Ret ERROR
  | JList _ | JDict _ => Raise (TypeError "unhashable type")
  | _ => Ret INFO
  end.

Definition _handle_notification (st : manager) (n : message) : result manager :=
  let method := default (JStr "") (msg_method n) in
  if eq_str method "window/logMessage" then
    let params := default (JDict []) (msg_params n) in
    bind (get params "type" (JInt 4)) (fun message_type =>
    bind (get params "message" (JStr "")) (fun message =>
    bind (log_levels_get message_type) (fun level =>
    Ret (add_log level (LspServerSays message) st))))
  else Ret st.

Definition _process_lsp_message (st : manager) (m : message) : result manager :=
  if has (msg_id m) && has (msg_result m) then
    let request_id := str_id (default IdNull (msg_id m)) in
    match request_callbacks st !! request_id with
    | Some cb =>
        Ret (set_invoked (invoked st ++ [(cb, m)])
               (set_request_callbacks (delete request_id (request_callbacks st)) st))
    | None =>
        Ret (set_response_queue (response_queue st ++ [m]) st)
    end
  else if has (msg_method m) && negb (has (msg_id m)) then
    _handle_notification st m
  else Ret st.

(** One iteration of the [_lsp_reader] loop on a decoded frame: an exception
    is logged and ends the loop. *)
Definition reader_deliver (st : manager) (m : message) : manager :=
  match _process_lsp_message st m with
  | Ret st' => st'
  | Raise e => set_reader_alive false (add_log ERROR (ReaderError e) st)
  end.

(** [while self.running and self.server_process.poll() is None] *)
Definition reader_can_run (st : manager) : bool :=
  reader_alive st && running st && is_running st.

(** The reader thread while a caller blocks in [response_queue.get]: frames
    are processed in order until the queue holds a message. *)
Fixpoint reader_until_response (frames : list message) (st : manager) : manager :=
  match response_queue st with
  | _ :: _ => set_inbox frames st
  | [] =>
      match frames with
      | [] => set_inbox [] st
      | m :: rest =>
          if reader_can_run st then reader_until_response rest (reader_deliver st m)
          else set_inbox frames st
      end
  end.

(** [self.response_queue.get(timeout=10)]: [None] stands for [queue.Empty]. *)
Definition response_queue_get (st : manager) : option message * manager :=
  let batch := default [] (head (schedule st)) in
  let st1 := set_schedule (tail (schedule st)) st in
  let st2 := reader_until_response (inbox st1 ++ batch) st1 in
  match response_queue st2 with
  | m :: q => (Some m, set_response_queue q st2)
  | [] => (None, st2)
  end.

(** Methods run on the manager object and may raise: a state and exception
    monad over [manager]. *)
Definition M (A : Type) : Type := manager -> result A * manager.

#[global] Instance M_ret : MRet M := fun A a st => (Ret a, st).

#[global] Instance M_bind : MBind M := fun A B k m st =>
  match m st with
  | (Ret a, st') => k a st'
  | (Raise e, st') => (Raise e, st')
  end.

Definition raise {A} (e : exn) : M A := fun st => (Raise e, st).

Definition lift {A} (r : result A) : M A := fun st => (r, st).

Definition gets {A} (f : manager -> A) : M A := fun st => (Ret (f st), st).

Definition modify (f : manager -> manager) : M unit := fun st => (Ret tt, f st).

Definition logger (lvl : log_level) (ev : log_event) : M unit :=
  modify (add_log lvl ev).

(** [try: m except Exception as e: h e] *)
Definition try_catch {A} (m : M A) (h : exn -> M A) : M A := fun st =>
  match m st with
  | (Ret a, st') => (Ret a, st')
  | (Raise e, st') => h e st'
  end.

(** [for x in l: body x] *)
Fixpoint for_each {A} (l : list A) (body : A -> M unit) : M unit :=
  match l with
  | [] => mret tt
  | x :: l' => body x ;; for_each l' body
  end.

(** First half of [_send_request_sync] and of [_send_request_async]:
    allocate the id, build the request. *)
Definition allocate_request (method : string) (params : json) : M (string * message) :=
  fun st =>
    let request_id := str_int (next_request_id st) in
    (Ret (request_id, request request_id method params),
     set_next_request_id (next_request_id st + 1) st).

Definition write_queue_put (m : message) : M unit :=
  modify (fun st => set_write_queue (write_queue st ++ [m]) st).

(** [_send_request_sync] up to and including [self.write_queue.put(request)];
    returns the allocated id. *)
Definition put_request_sync (method : string) (params : json) : M string :=
  '(request_id, req) ← allocate_request method params;
  write_queue_put req;;
  mret request_id.

(** [_send_request_sync] from [try:] on. *)
Definition wait_response_sync (method : string) : M message := fun st =>
  match response_queue_get st with
  | (Some response, st') => (Ret response, st')
  | (None, st') => (Ret empty_message, add_log ERROR (TimeoutWaiting method) st')
  end.

Definition _send_request_sync (method : string) (params : json) : M message :=
  put_request_sync method params;;
  wait_response_sync method.

Definition _send_request_async (method : string) (params : json) (cb : callback)
  : M unit :=
  '(request_id, req) ← allocate_request method params;
  modify (fun st =>
    set_request_callbacks (<[request_id := cb]> (request_callbacks st)) st);;
  write_queue_put req.

Definition _send_notification (method : string) (params : json) : M unit :=
  write_queue_put (notification method params).

(** [_uri_to_path]: [uri] must be a [str] to have [startswith]. *)
Definition _uri_to_path (uri : json) : result json :=
  match uri with
  | JStr u =>
      if startswith u "file://" then Ret (JStr (slice_from u 7)) else Ret (JStr u)
  | _ => Raise (AttributeError "startswith")
  end.

End Session.

(** ** [_lsp_reader]: one frame off the backend's standard output *)

Module Framing.
Import Py.

(** [stdout.readline()]: the bytes up to and including the first LF, or all
    that is left; returns the line and the rest of the stream. *)
Fixpoint readline (s : string) : string * string :=
  match s with
  | EmptyString => (EmptyString, EmptyString)
  | String c rest =>
      if bool_decide (c = LF) then (String c EmptyString, rest)
      else let '(l, r) := readline rest in (String c l, r)
  end.

(** Whitespace for [bytes.strip] and [int]: space, HT, LF, VT, FF, CR. *)
Definition is_space (c : ascii) : bool :=
  match N_of_ascii c with
  | 32 | 9 | 10 | 11 | 12 | 13 => true
  | _ => false
  end%N.

Fixpoint lstrip (s : string) : string :=
  match s with
  | String c s' => if is_space c then lstrip s' else s
  | EmptyString => EmptyString
  end.

Fixpoint rstrip (s : string) : string :=
  match s with
  | String c s' =>
      match rstrip s' with
      | EmptyString => if is_space c then EmptyString else String c EmptyString
      | r => String c r
      end
  | EmptyString => EmptyString
  end.

Definition strip (s : string) : string := lstrip (rstrip s).

(** [s.split(sep)] for a one-byte separator. *)
Fixpoint split (sep : ascii) (s : string) : list string :=
  match s with
  | EmptyString => [EmptyString]
  | String c s' =>
      if bool_decide (c = sep) then EmptyString :: split sep s'
      else
        match split sep s' with
        | field :: fields => String c field :: fields
        | [] => [String c EmptyString]
        end
  end.

Definition digit_value (c : ascii) : option Z :=
  let n := Z.of_N (N_of_ascii c) in
  if (48 <=? n) && (n <=? 57) then Some (n - 48) else None.

(** Decimal digits with single underscores between them. *)
Fixpoint parse_digits (acc : Z) (after_digit : bool) (s : string) : option Z :=
  match s with
  | EmptyString => if after_digit then Some acc else None
  | String c s' =>
      match digit_value c with
      | Some d => parse_digits (10 * acc + d) true s'
      | None =>
          if bool_decide (c = "_"%char) && after_digit then parse_digits acc false s'
          else None
      end
  end.

(** [int(b)] for a [bytes] value. *)
Definition int_of_bytes (b : string) : result Z :=
  let digits_of s :=
    match parse_digits 0 false s with
    | Some n => Ret n
    | None => Raise (ValueError "invalid literal for int()")
    end in
  match strip b with
  | String "+" s => digits_of s
  | String "-" s =>
      match digits_of s with
      | Ret n => Ret (- n)
      | Raise e => Raise e
      end
  | s => digits_of s
  end.

(** [stdout.read(n)]. The pipe is opened with [bufsize=0], so [stdout] is a
    raw stream and a read is one system call: it blocks until the pipe holds
    a byte and returns what the pipe holds then, at most [n] bytes. [more]
    is the number of bytes the pipe holds beyond the first when the call is
    made; [s] is all that the backend writes from here on. A negative [n]
    reads to the end of the stream. *)
Definition read (more : nat) (n : Z) (s : string) : string * string :=
  if n <? 0 then (s, EmptyString)
  else
    let k := Nat.min (Z.to_nat n) (S more) in
    (take_chars k s, drop_chars k s).

(** [int(line.split(b":")[1])] for a stripped header line, when it is a
    [Content-Length] line. *)
Definition header_content_length (line : string) : option (result Z) :=
  if startswith line "Content-Length:" then
    match split ":" line !! 1%nat with
    | Some field => Some (int_of_bytes field)
    | None => Some (Raise IndexError)
    end
  else None.

(** Outcome of one pass through the body of the reader's [while] loop. *)
Inductive iteration :=
| Continue (rest : string)
| Dispatch (content : string) (rest : string)
| Break (e : exn).

(** One pass over the loop body, up to the bytes handed to [json.loads];
    [language] is [self.language], [more] is what the pipe holds when the
    body is read. *)
Definition _lsp_reader_iteration (language : string) (more : nat) (stdout : string)
  : iteration :=
  let '(raw, s1) := readline stdout in
  let line := strip raw in
  if bool_decide (line = EmptyString) then Continue s1
  else
    match header_content_length line with
    | Some (Ret content_length) =>
        let '(_, s2) := readline s1 in
        let s3 := if bool_decide (language = "python") then snd (readline s2) else s2 in
        let '(content, s4) := read more content_length s3 in
        Dispatch content s4
    | Some (Raise e) => Break e
    | None => Continue s1
    end.

End Framing.

(** ** The edit applier inside [run_formatter] *)

Module Edits.
Import Py Json.

#[global] Instance result_ret : MRet result := fun A a => Ret a.
#[global] Instance result_bind : MBind result := fun A B k r => bind r k.

(** A value used as an integer: an [int], or a [bool], which Python counts
    as 0 or 1. Any other JSON value makes some later step of the same [try]
    block raise, which is all the caller observes. *)
Definition as_int (v : json) : result Z :=
  match v with
  | JInt n => Ret n
  | JBool b => Ret (if b then 1 else 0)
  | _ => Raise (TypeError "int")
  end.

Definition as_str (v : json) : result string :=
  match v with
  | JStr s => Ret s
  | _ => Raise (TypeError "str")
  end.

(** [for x in v]: the elements of a list, the keys of a dict, the characters
    of a string. *)
Definition iterate (v : json) : result (list json) :=
  match v with
  | JList l => Ret l
  | JDict d => Ret (map (fun kv => JStr (fst kv)) d)
  | JStr s => Ret (map (fun c => JStr (String c EmptyString)) (list_ascii_of_string s))
  | _ => Raise (TypeError "not iterable")
  end.

Fixpoint map_result {A B} (f : A -> result B) (l : list A) : result (list B) :=
  match l with
  | [] => Ret []
  | x :: l' => y ← f x; ys ← map_result f l'; Ret (y :: ys)
  end.

(** [lambda e: -1 * e["range"]["start"]["line"]] *)
Definition sort_key (e : json) : result Z :=
  range ← getitem e "range";
  start ← getitem range "start";
  line ← getitem start "line";
  n ← as_int line;
  Ret (-1 * n).

(** [sorted(result, key=...)] *)
Definition sorted_edits (result : json) : Py.result (list json) :=
  edits ← iterate result;
  keys ← map_result sort_key edits;
  Ret (map snd (sorted (zip keys edits) fst)).

(** [sum(len(lines[i]) for i in range(n))]: [lines[i]] raises past the end. *)
Fixpoint sum_len_lines (lines : list string) (indices : list nat) : result Z :=
  match indices with
  | [] => Ret 0
  | i :: indices' =>
      match lines !! i with
      | Some l => rest ← sum_len_lines lines indices'; Ret (len l + rest)
      | None => Raise IndexError
      end
  end.

(** [range(n)] *)
Definition range (n : Z) : list nat := seq 0 (Z.to_nat n).

(** [sum(len(lines[i]) for i in range(pos["line"])) + pos["character"]] *)
Definition offset_of (lines : list string) (pos : json) : result Z :=
  line ← getitem pos "line";
  n ← as_int line;
  before ← sum_len_lines lines (range n);
  character ← getitem pos "character";
  c ← as_int character;
  Ret (before + c).

(** The body of the [for edit in sorted(...)] loop. *)
Definition apply_edit (new_content : string) (edit : json) : result string :=
  range ← getitem edit "range";
  range_start ← getitem range "start";
  range_end ← getitem range "end";
  new_text_value ← getitem edit "newText";
  let lines := splitlines_keepends new_content in
  start_offset ← offset_of lines range_start;
  end_offset ← offset_of lines range_end;
  new_text ← as_str new_text_value;
  Ret (slice_to new_content start_offset +:+ new_text +:+ slice_from new_content end_offset).

Fixpoint apply_edits_in_order (new_content : string) (edits : list json) : result string :=
  match edits with
  | [] => Ret new_content
  | edit :: edits' =>
      new_content' ← apply_edit new_content edit;
      apply_edits_in_order new_content' edits'
  end.

(** Lines 276-291 of [run_formatter]: sort, then apply one by one. *)
Definition apply_text_edits (content : string) (result : json) : Py.result string :=
  edits ← sorted_edits result;
  apply_edits_in_order content edits.

(** A [TextEdit] as the backend sends it. *)
Definition text_edit (start_line start_character end_line end_character : Z)
  (new_text : string) : json :=
  JDict [("range", JDict [("start", JDict [("line", JInt start_line);
                                            ("character", JInt start_character)]);
                          ("end", JDict [("line", JInt end_line);
                                          ("character", JInt end_character)])]);
         ("newText", JStr new_text)].

End Edits.

(** ** The manager classes: start, lookups and the formatter *)

Module Managers.
Import Py Json Session Edits.

(** What the operating system answers. [popen] is the outcome of
    [subprocess.Popen(command, cwd=...)]: the state of the new child, or the
    exception raised when it cannot be launched. [subprocess_run] is the
    outcome of [subprocess.run(command, cwd=..., input=...)]: return code and
    standard output, or the exception raised. *)
Record os_env := OsEnv {
  getpid : Z;
  abspath : string -> string;
  isfile : string -> bool;
  read_text : string -> result string;
  popen : list string -> string -> result process;
  subprocess_run : list string -> option string -> option string -> result (Z * string)
}.

(** [self.server_command] *)
Definition server_command (k : backend) : list string :=
  match k with
  | Python => ["pylsp"]
  | JavaScript => ["typescript-language-server"; "--stdio"]
  | Java => ["java"; "-jar"; "/path/to/eclipse.jdt.ls.jar"; "--stdio"]
  end.

(** [self._server_settings] *)
Definition _server_settings (k : backend) : json :=
  match k with
  | Python =>
      JDict [("pylsp", JDict [("plugins", JDict [
        ("jedi", JDict [("enabled", JBool true)]);
        ("pylint", JDict [("enabled", JBool true); ("executable", JStr "pylint")]);
        ("pycodestyle", JDict [("enabled", JBool true)]);
        ("black", JDict [("enabled", JBool true)])])])]
  | JavaScript =>
      JDict [("typescript", JDict [
        ("format", JDict [
          ("enable", JBool true);
          ("insertSpaceAfterCommaDelimiter", JBool true);
          ("insertSpaceAfterConstructor", JBool false);
          ("insertSpaceAfterSemicolonInForStatements", JBool true);
          ("insertSpaceBeforeAndAfterBinaryOperators", JBool true)]);
        ("suggest", JDict [
          ("completeFunctionCalls", JBool true);
          ("includeCompletionsForImportStatements", JBool true)])])]
  | Java =>
      JDict [("java", JDict [
        ("configuration", JDict [("updateBuildConfiguration", JStr "automatic")]);
        ("format", JDict [("enabled", JBool true)])])]
  end.

(** The [params] of the [initialize] request. [initialization_options] is the
    empty dict: the base constructor assigns it after the subclass did. *)
Definition initialize_params (env : os_env) (st : manager) : json :=
  JDict [
    ("processId", JInt (getpid env));
    ("rootPath", JStr (workspace_path st));
    ("rootUri", JStr ("file://" +:+ workspace_path st));
    ("capabilities", JDict [
      ("textDocument", JDict [
        ("synchronization", JDict [("didSave", JBool true); ("willSave", JBool true)]);
        ("completion", JDict [("completionItem", JDict [("snippetSupport", JBool true)])]);
        ("signatureHelp", JDict []);
        ("definition", JDict []);
        ("references", JDict []);
        ("documentHighlight", JDict []);
        ("formatting", JDict []);
        ("rangeFormatting", JDict []);
        ("onTypeFormatting", JDict []);
        ("rename", JDict []);
        ("publishDiagnostics", JDict [])]);
      ("workspace", JDict [
        ("applyEdit", JBool true);
        ("workspaceEdit", JDict [("documentChanges", JBool true)]);
        ("didChangeConfiguration", JDict []);
        ("didChangeWatchedFiles", JDict [])])]);
    ("initializationOptions", JDict []);
    ("trace", JStr "verbose")].

Definition _initialize_lsp_server (env : os_env) : M unit :=
  params ← gets (initialize_params env);
  response ← _send_request_sync "initialize" params;
  if has (msg_result response) then
    _send_notification "initialized" (JDict []);;
    _send_notification "workspace/didChangeConfiguration" (JDict [("settings", JDict [])]);;
    logger INFO (Note "Successfully initialized LSP server")
  else logger ERROR (Failure "Failed to initialize LSP server").

Definition _start_lsp_communication (env : os_env) : M unit :=
  p ← gets server_process;
  match p with
  | None =>
      logger ERROR (Failure "Cannot start LSP communication: server process is not running")
  | Some _ =>
      modify (set_running true);;
      modify (set_reader_alive true);;
      _initialize_lsp_server env
  end.

Definition _configure_server : M unit :=
  k ← gets kind;
  _send_notification "workspace/didChangeConfiguration"
    (JDict [("settings", _server_settings k)]).

(** [start] of the three concrete managers: a launch failure is logged and
    raised again. A new child comes with a new, empty pipe. *)
Definition start (env : os_env) : M unit :=
  r ← gets is_running;
  if (r : bool) then logger INFO (Note "language server is already running")
  else
    try_catch
      (k ← gets kind;
       cwd ← gets workspace_path;
       logger INFO (Note "Starting language server");;
       p ← lift (popen env (server_command k) cwd);
       modify (fun st => set_inbox [] (set_server_process (Some p) st));;
       logger INFO (Note "language server started successfully");;
       _start_lsp_communication env;;
       _configure_server)
      (fun e =>
       logger ERROR (Caught "Failed to start language server" e);;
       raise e).

(** [if not self.is_running(): self.start()] *)
Definition ensure_running (env : os_env) : M unit :=
  r ← gets is_running;
  if (r : bool) then mret tt else start env.

(** [f"file://{os.path.abspath(path)}"] *)
Definition _path_to_uri (env : os_env) (path : string) : string :=
  "file://" +:+ abspath env path.

(** [{"path": self._uri_to_path(uri), "range": range_data}] for one location. *)
Definition location_entry (location : json) : result json :=
  uri ← get location "uri" (JStr "");
  range_data ← get location "range" (JDict []);
  path ← _uri_to_path uri;
  Ret (JDict [("path", path); ("range", range_data)]).

(** [BaseLanguageServerManager.get_definition] *)
Definition get_definition (env : os_env) (file_path : string) (line character : Z)
  : M json :=
  logger INFO (Note "Getting definition");;
  ensure_running env;;
  let params :=
    JDict [("textDocument", JDict [("uri", JStr (_path_to_uri env file_path))]);
           ("position", JDict [("line", JInt line); ("character", JInt character)])] in
  response ← _send_request_sync "textDocument/definition" params;
  let result := default JNull (msg_result response) in
  match result with
  | JList l =>
      locations ← lift (map_result location_entry l);
      mret (JDict [("locations", JList locations)])
  | JDict _ =>
      entry ← lift (location_entry result);
      mret (JDict [("locations", JList [entry])])
  | _ => mret (JDict [("locations", JList [])])
  end.

(** [BaseLanguageServerManager.get_references] *)
Definition get_references (env : os_env) (file_path : string) (line character : Z)
  : M json :=
  logger INFO (Note "Getting references");;
  ensure_running env;;
  let params :=
    JDict [("textDocument", JDict [("uri", JStr (_path_to_uri env file_path))]);
           ("position", JDict [("line", JInt line); ("character", JInt character)]);
           ("context", JDict [("includeDeclaration", JBool true)])] in
  response ← _send_request_sync "textDocument/references" params;
  let result := default (JList []) (msg_result response) in
  items ← lift (iterate result);
  references ← lift (map_result location_entry items);
  mret (JList references).

(** The [languageId] sent in [textDocument/didOpen]. *)
Definition language_id (k : backend) (file_path : string) : string :=
  match k with
  | Python => "python"
  | Java => "java"
  | JavaScript =>
      let ext := lower (snd (splitext file_path)) in
      if bool_decide (ext = ".js") then "javascript"
      else if bool_decide (ext = ".ts") then "typescript"
      else if bool_decide (ext = ".jsx") then "javascriptreact"
      else if bool_decide (ext = ".tsx") then "typescriptreact"
      else "javascript"
  end.

Definition tab_size (k : backend) : Z :=
  match k with
  | Python => 4
  | JavaScript | Java => 2
  end.

(** Approach 1 of [run_formatter], the [try] block: [Some new_content] when
    the method returns from inside it, [None] when control reaches
    approach 2. *)
Definition lsp_formatting (document_uri content : string) : M (option string) :=
  try_catch
    (k ← gets kind;
     response ← _send_request_sync "textDocument/formatting"
       (JDict [("textDocument", JDict [("uri", JStr document_uri)]);
               ("options", JDict [("tabSize", JInt (tab_size k));
                                  ("insertSpaces", JBool true)])]);
     match msg_result response with
     | Some result =>
         if truthy result then
           new_content ← lift (apply_text_edits content result);
           _send_notification "textDocument/didClose"
             (JDict [("textDocument", JDict [("uri", JStr document_uri)])]);;
           mret (Some new_content)
         else
           logger INFO (Note "No formatting changes from LSP server, falling back");;
           mret None
     | None =>
         logger INFO (Note "No formatting changes from LSP server, falling back");;
         mret None
     end)
    (fun e =>
     logger ERROR (Caught "Error during LSP formatting, falling back" e);;
     mret None).

(** The [subprocess.run] call of approach 2. *)
Definition run_fallback (env : os_env) (k : backend) (workspace file_path content : string)
  : result (Z * string) :=
  match k with
  | Python => subprocess_run env ["black"; "-"] None (Some content)
  | JavaScript =>
      subprocess_run env (["npx"; "prettier"; "--stdin-filepath"] ++ [file_path])
        None (Some content)
  | Java =>
      subprocess_run env (["java"; "-jar"; "/path/to/google-java-format.jar"] ++ [file_path])
        (Some workspace) None
  end.

(** Approach 2 of [run_formatter]. *)
Definition fallback_formatting (env : os_env) (file_path content : string) : M string :=
  k ← gets kind;
  workspace ← gets workspace_path;
  match run_fallback env k workspace file_path content with
  | Ret (returncode, stdout) =>
      if returncode =? 0 then mret stdout
      else
        logger ERROR (Failure "formatter error");;
        mret content
  | Raise e =>
      logger ERROR (Caught "Error running formatter" e);;
      mret content
  end.

(** [run_formatter] between the file check and approach 1: make sure the
    server runs, read the file, announce it with [textDocument/didOpen]. *)
Definition open_document (env : os_env) (file_path : string) : M string :=
  logger INFO (Note "Formatting file");;
  ensure_running env;;
  content ← lift (read_text env file_path);
  k ← gets kind;
  _send_notification "textDocument/didOpen"
    (JDict [("textDocument", JDict [("uri", JStr (_path_to_uri env file_path));
                                    ("languageId", JStr (language_id k file_path));
                                    ("version", JInt 1);
                                    ("text", JStr content)])]);;
  mret content.

(** [run_formatter] of the three concrete managers. *)
Definition run_formatter (env : os_env) (file_path : string) : M string :=
  if negb (isfile env file_path) then raise (ValueError "File not found")
  else
    content ← open_document env file_path;
    attempt ← lsp_formatting (_path_to_uri env file_path) content;
    match attempt with
    | Some new_content => mret new_content
    | None => fallback_formatting env file_path content
    end.

(** A backend that never answers: nothing queued, nothing in the pipe, and
    nothing written during any forthcoming wait. *)
Definition unresponsive (st : manager) : Prop :=
  response_queue st = [] /\ inbox st = [] /\ Forall (fun batch => batch = []) (schedule st).

(** What [ensure_running] has to go by: the server runs already, or
    [subprocess.Popen] is tried on the server command. *)
Definition launch (env : os_env) (st : manager) : result process :=
  if is_running st then Ret Alive
  else popen env (server_command (kind st)) (workspace_path st).

(** What the operations never change: the class and the workspace. *)
Definition same_manager (st st' : manager) : Prop :=
  kind st' = kind st /\ workspace_path st' = workspace_path st.

Definition keeps_manager {A} (m : M A) : Prop :=
  forall st, same_manager st (snd (m st)).

(** Names bound in the body of [BaseLanguageServerManager]. *)
Definition base_class_attributes : list string :=
  ["__init__"; "language"; "start"; "stop"; "is_running"; "run_linter";
   "run_formatter"; "_start_lsp_communication"; "_stop_lsp_communication";
   "_lsp_reader"; "_lsp_writer"; "_process_lsp_message"; "_handle_notification";
   "_initialize_lsp_server"; "_send_shutdown_request"; "_send_request_sync";
   "_send_request_async"; "_send_notification"; "_uri_to_path"; "_path_to_uri";
   "get_definition"; "get_references"].

(** Names bound in the body of each concrete class. *)
Definition class_attributes (k : backend) : list string :=
  match k with
  | Python =>
      ["language"; "__init__"; "start"; "stop"; "is_running"; "_configure_server";
       "run_linter"; "run_formatter"; "get_definition"; "get_references"]
  | JavaScript | Java =>
      ["language"; "__init__"; "start"; "stop"; "is_running"; "_configure_server";
       "run_linter"; "run_formatter"]
  end.

(** Names the constructors assign on [self]. *)
Definition instance_attributes (k : backend) : list string :=
  ["workspace_path"; "logger"; "server_process"; "request_callbacks";
   "next_request_id"; "response_queue"; "reader_thread"; "writer_thread";
   "write_queue"; "running"; "initialization_options"; "server_command";
   "_server_settings"]
  ++ match k with
     | Python => ["pylint_cmd"; "black_cmd"]
     | JavaScript => ["eslint_cmd"; "prettier_cmd"]
     | Java => ["formatter_cmd"; "linter_cmd"]
     end.

(** Whether [self.<name>] resolves: the instance, the class, then the base
    class. ([abc.ABC] and [object] only add dunder names and [_abc_impl].) *)
Definition has_attribute (k : backend) (name : string) : bool :=
  bool_decide (name ∈ instance_attributes k ++ class_attributes k ++ base_class_attributes).

(** [self.<name>(method, params)] where a response is expected back. Of the
    attributes that exist, only [_send_request_sync] is called this way in
    the sources. *)
Definition call_request_method (name method : string) (params : json) : M message :=
  k ← gets kind;
  if has_attribute k name then
    if bool_decide (name = "_send_request_sync") then _send_request_sync method params
    else raise (TypeError "not a request method")
  else raise (AttributeError name).

(** [PythonLanguageServerManager.get_definition] *)
Definition python_get_definition (env : os_env) (file_path : string) (line character : Z)
  : M json :=
  logger INFO (Note "Getting definition");;
  ensure_running env;;
  let params :=
    JDict [("textDocument", JDict [("uri", JStr ("file://" +:+ abspath env file_path))]);
           ("position", JDict [("line", JInt line); ("character", JInt character)])] in
  response ← call_request_method "_send_lsp_request" "textDocument/definition" params;
  mret (default (JDict []) (msg_result response)).

(** [PythonLanguageServerManager.get_references] *)
Definition python_get_references (env : os_env) (file_path : string) (line character : Z)
  : M json :=
  logger INFO (Note "Getting references");;
  ensure_running env;;
  let params :=
    JDict [("textDocument", JDict [("uri", JStr ("file://" +:+ abspath env file_path))]);
           ("position", JDict [("line", JInt line); ("character", JInt character)]);
           ("context", JDict [("includeDeclaration", JBool true)])] in
  response ← call_request_method "_send_lsp_request" "textDocument/references" params;
  mret (default (JList []) (msg_result response)).

(** [manager.get_definition(...)]: the override of the object's class. *)
Definition call_get_definition (env : os_env) (file_path : string) (line character : Z)
  : M json :=
  k ← gets kind;
  match k with
  | Python => python_get_definition env file_path line character
  | JavaScript | Java => get_definition env file_path line character
  end.

(** [manager.get_references(...)]: the override of the object's class. *)
Definition call_get_references (env : os_env) (file_path : string) (line character : Z)
  : M json :=
  k ← gets kind;
  match k with
  | Python => python_get_references env file_path line character
  | JavaScript | Java => get_references env file_path line character
  end.

End Managers.

(** ** [MultiLanguageServer]: routing by file extension *)

Module Service.
Import Py Json Session Edits.

(** The service object. A manager object is referred to by the key under
    which [server_managers] holds it. *)
Record service := MakeService {
  service_workspace : string;
  server_managers : gmap string manager
}.

Definition reference := string.

(** [MultiLanguageServer.__init__]: the [java] entry is commented out. *)
Definition init (workspace : string) : service :=
  MakeService workspace
    (<["python" := Session.init Python workspace]>
       (<["javascript" := Session.init JavaScript workspace]> ∅)).

(** [self.server_managers[key]] *)
Definition server_managers_getitem (svc : service) (key : string) : result reference :=
  match server_managers svc !! key with
  | Some _ => Ret key
  | None => Raise (KeyError key)
  end.

(** [d.get(k)] on a dict literal given as a list of items. *)
Fixpoint items_get {A} (items : list (string * A)) (k : string) : option A :=
  match items with
  | [] => None
  | (k', v) :: items' => if bool_decide (k' = k) then Some v else items_get items' k
  end.

Definition get_server_for_file (svc : service) (file_path : string)
  : result (option reference) :=
  let file_ext := lower (snd (splitext file_path)) in
  py ← server_managers_getitem svc "python";
  js ← server_managers_getitem svc "javascript";
  ts ← server_managers_getitem svc "javascript";
  jsx ← server_managers_getitem svc "javascript";
  tsx ← server_managers_getitem svc "javascript";
  java ← server_managers_getitem svc "java";
  let ext_to_server :=
    [(".py", py); (".js", js); (".ts", ts); (".jsx", jsx); (".tsx", tsx);
     (".java", java)] in
  Ret (items_get ext_to_server file_ext).

(** A method call on the manager object behind a reference. *)
Definition on_manager {A} (r : reference) (op : M A) (svc : service)
  : result A * service :=
  match server_managers svc !! r with
  | Some m =>
      let '(res, m') := op m in
      (res, MakeService (service_workspace svc) (<[r := m']> (server_managers svc)))
  | None => (Raise (KeyError r), svc)
  end.

(** The shared shape of [run_linter], [run_formatter], [get_definition] and
    [get_references] of the service. *)
Definition route {A} (file_path : string) (op : M A) (svc : service)
  : result A * service :=
  match get_server_for_file svc file_path with
  | Raise e => (Raise e, svc)
  | Ret None => (Raise (ValueError "No language server found for file"), svc)
  | Ret (Some server) => on_manager server op svc
  end.

Section Operations.

Variable env : Managers.os_env.

(** [run_linter] of the manager classes, which runs an external linter. *)
Variable manager_run_linter : string -> M json.

Definition run_linter (file_path : string) (svc : service) : result json * service :=
  route file_path (manager_run_linter file_path) svc.

Definition run_formatter (file_path : string) (svc : service) : result string * service :=
  route file_path (Managers.run_formatter env file_path) svc.

Definition get_definition (file_path : string) (line character : Z) (svc : service)
  : result json * service :=
  route file_path (Managers.call_get_definition env file_path line character) svc.

Definition get_references (file_path : string) (line character : Z) (svc : service)
  : result json * service :=
  route file_path (Managers.call_get_references env file_path line character) svc.

End Operations.

End Service.

(** ** Concrete environments and sessions used in the examples *)

Module Scenarios.
Import Py Json Session Edits Managers.

(** A machine where every command launches, every path is a readable file
    holding [hello world], and the fallback formatter exits with status 1. *)
Definition env_ok : os_env :=
  OsEnv 4242 (fun p => p) (fun _ => true) (fun _ => Ret "hello world")
    (fun _ _ => Ret Alive) (fun _ _ _ => Ret (1, "")).

(** The same machine without the language server binaries. *)
Definition env_no_backend : os_env :=
  OsEnv 4242 (fun p => p) (fun _ => true) (fun _ => Ret "hello world")
    (fun _ _ => Raise (OSError "No such file or directory"))
    (fun _ _ _ => Ret (1, "")).

(** A machine where the files exist and cannot be read. *)
Definition env_unreadable : os_env :=
  OsEnv 4242 (fun p => p) (fun _ => true) (fun _ => Raise (OSError "Permission denied"))
    (fun _ _ => Ret Alive) (fun _ _ _ => Ret (1, "")).

(** A success response and an error response of the backend. *)
Definition response (i : string) (r : json) : message :=
  Message (Some (IdStr i)) None None (Some r) None.

Definition error_response (i : string) (e : json) : message :=
  Message (Some (IdStr i)) None None None (Some e).

Definition location (path : string) : json :=
  JDict [("uri", JStr ("file://" +:+ path)); ("range", JDict [])].

(** A JavaScript session after [start()]: the backend answered the
    [initialize] request, which took id 1. *)
Definition ready : manager :=
  snd (start env_ok
         (set_schedule [[response "1" (JDict [("capabilities", JDict [])])]]
            (Session.init JavaScript "/ws"))).

(** A session with one asynchronous request outstanding: id 1, callback
    [on_definition]. *)
Definition awaiting_callback : manager :=
  snd (_send_request_async "textDocument/definition" (JDict []) "on_definition"
         (Session.init JavaScript "/ws")).

Definition method_not_found : message :=
  error_response "1"
    (JDict [("code", JInt (-32601)); ("message", JStr "Method not found")]).

(** A frame as a backend writes it: header line, blank line, body; then the
    start of the next frame. *)
Definition header_line : string := "Content-Length: 2" +:+ String CR EmptyString.
Definition blank_line : string := String CR EmptyString.
Definition next_frame : string := "Content-Length: 17".

(** Two edits on line 0 of [hello world], in document order. *)
Definition edit_hello : json := text_edit 0 0 0 5 "goodbye".
Definition edit_world : json := text_edit 0 6 0 11 "moon".

(** [ready] with a backend that answers the next request, which takes id 2,
    with an edit on line 5 of a one-line document. *)
Definition ready_with_bad_edit : manager :=
  set_schedule [[response "2" (JList [text_edit 5 0 5 1 "x"])]] ready.

(** [ready] with a backend that answers the next request with [edit_world]. *)
Definition ready_with_edit : manager :=
  set_schedule [[response "2" (JList [edit_world])]] ready.

(** A log-message notification without a [type] member. *)
Definition log_message_without_type : message :=
  notification "window/logMessage" (JDict [("message", JStr "indexing done")]).

End Scenarios.

(** ** [_lsp_writer]: the bytes written for one message *)

Module Writer.
Import Py.

(** [f"Content-Length: {len(content)}\r\n\r\n".encode()], where [content] is
    the encoded JSON body. *)
Definition header (content : string) : string :=
  "Content-Length: " +:+ str_int (len content)
  +:+ String CR (String LF (String CR (String LF EmptyString))).

(** The argument of [stdin.write]: [header + content]. *)
Definition frame (content : string) : string := header content +:+ content.

(** Strings all of whose characters satisfy [p]. *)
Fixpoint all_chars (p : ascii -> bool) (s : string) : bool :=
  match s with
  | EmptyString => true
  | String c s' => p c && all_chars p s'
  end.

Definition is_digit (c : ascii) : bool :=
  match Framing.digit_value c with
  | Some _ => true
  | None => false
  end.

(** The summed length of a list of lines. *)
Fixpoint total_len (lines : list string) : Z :=
  match lines with
  | [] => 0
  | l :: lines' => len l + total_len lines'
  end.

End Writer.

(** ** Invariants of a session *)

Module Invariants.
Import Py Json Session.

(** Ids start at 1, and every key of [request_callbacks] is [str(n)] for an
    id [n] below [next_request_id]. *)
Definition callbacks_allocated (st : manager) : Prop :=
  1 <= next_request_id st
  /\ forall key cb, request_callbacks st !! key = Some cb ->
       exists n, key = str_int n /\ 1 <= n < next_request_id st.

(** From [st] to [st'] no callback was added and no id was given back. *)
Definition callbacks_shrink (st st' : manager) : Prop :=
  next_request_id st <= next_request_id st'
  /\ forall key cb, request_callbacks st' !! key = Some cb ->
                    request_callbacks st !! key = Some cb.

(** A running session with nothing pending whose backend answers the next
    synchronous request with the response [m] before the deadline: [m] has
    an [id] and a [result], and no callback is registered for its id. *)
Definition answered_with (st : manager) (m : message) : Prop :=
  is_running st = true
  /\ running st = true
  /\ reader_alive st = true
  /\ response_queue st = []
  /\ inbox st = []
  /\ (exists later, schedule st = [m] :: later)
  /\ has (msg_id m) = true
  /\ has (msg_result m) = true
  /\ request_callbacks st !! str_id (default IdNull (msg_id m)) = None.

(** A [Location] as a backend sends it, and as the lookups return it. *)
Definition location_of (path : string) (range : json) : json :=
  JDict [("uri", JStr ("file://" +:+ path)); ("range", range)].

Definition location_entry_of (path : string) (range : json) : json :=
  JDict [("path", JStr path); ("range", range)].

End Invariants.

(** ** [WorkspaceManager]: files of the workspace by language *)

Module Workspace.
Import Py.

(** What the class asks of the file system. [walk top] lists the paths
    [os.path.join(root, file)] that the loops over [os.walk(top)] visit, in
    that order. *)
Record file_system := FileSystem {
  abspath : string -> string;
  isdir : string -> bool;
  walk : string -> list string
}.

(** The object; its logger is left out, nothing reads what it records. *)
Record workspace_manager := MakeWorkspaceManager {
  workspace_path : string;
  files_by_language : gmap string (gset string)
}.

(** [self.extension_to_language], never assigned after the constructor. *)
Definition extension_to_language : list (string * string) :=
  [(".py", "python"); (".js", "javascript"); (".ts", "javascript");
   (".jsx", "javascript"); (".tsx", "javascript"); (".java", "java")].

Definition _categorize_file (w : workspace_manager) (file_path : string)
  : workspace_manager :=
  let ext := snd (splitext file_path) in
  match Service.items_get extension_to_language (lower ext) with
  | Some language =>
      if negb (bool_decide (language = ""))
      then
        match files_by_language w !! language with
        | Some files =>
            MakeWorkspaceManager (workspace_path w)
              (<[language := files ∪ {[file_path]}]> (files_by_language w))
        | None => w
        end
      else w
  | None => w
  end.

Definition _scan_workspace (fs : file_system) (w : workspace_manager)
  : workspace_manager :=
  foldl _categorize_file w (walk fs (workspace_path w)).

(** [WorkspaceManager.__init__] *)
Definition init (fs : file_system) (path : string) : result workspace_manager :=
  let workspace := abspath fs path in
  if negb (isdir fs workspace)
  then Raise (ValueError "Workspace path is not a directory")
  else
    Ret (_scan_workspace fs
           (MakeWorkspaceManager workspace
              (<["python" := ∅]> (<["javascript" := ∅]> (<["java" := ∅]> ∅))))).

(** [list(self.files_by_language[language])]: the order in which a set is
    listed is not specified, [elements] stands for any order. *)
Definition get_files_by_language (w : workspace_manager) (language : string)
  : list string :=
  match files_by_language w !! language with
  | None => []
  | Some files => elements files
  end.

Definition get_language_for_file (file_path : string) : option string :=
  let ext := snd (splitext file_path) in
  Service.items_get extension_to_language (lower ext).

Definition add_file (w : workspace_manager) (file_path : string) : workspace_manager :=
  _categorize_file w file_path.

(** [discard] on the set of every language. *)
Definition remove_file (w : workspace_manager) (file_path : string) : workspace_manager :=
  MakeWorkspaceManager (workspace_path w)
    ((fun files : gset string => files ∖ {[file_path]}) <$> files_by_language w).

Definition is_file_in_workspace (fs : file_system) (w : workspace_manager)
  (file_path : string) : bool :=
  startswith (abspath fs file_path) (workspace_path w).

(** The objects a program can hold: built by the constructor, then changed
    by [add_file] and [remove_file]. *)
Inductive reachable (fs : file_system) (path : string) : workspace_manager -> Prop :=
  | reach_init w : init fs path = Ret w -> reachable fs path w
  | reach_add w file_path :
      reachable fs path w -> reachable fs path (add_file w file_path)
  | reach_remove w file_path :
      reachable fs path w -> reachable fs path (remove_file w file_path).

(** The three languages have an entry in [files_by_language]. *)
Definition tracks_languages (w : workspace_manager) : Prop :=
  forall language, language ∈ ["python"; "javascript"; "java"] ->
                   is_Some (files_by_language w !! language).

End Workspace.

(** ** A concrete workspace used in the examples *)

Module WorkspaceScenarios.
Import Workspace.

(** A directory [/ws] with four files; every path is absolute already. *)
Definition fs_small : file_system :=
  FileSystem (fun p => p) (fun p => bool_decide (p = "/ws"))
    (fun top =>
       if bool_decide (top = "/ws")
       then ["/ws/app.py"; "/ws/web/index.TS"; "/ws/README.md"; "/ws/web/view.jsx"]
       else []).

(** The object that [WorkspaceManager("/ws")] builds there. *)
Definition scanned : workspace_manager :=
  _scan_workspace fs_small
    (MakeWorkspaceManager "/ws"
       (<["python" := ∅]> (<["javascript" := ∅]> (<["java" := ∅]> ∅)))).

End WorkspaceScenarios.

(** ** [run_linter] of the manager classes *)

Module Linter.
Import Py Json Session Managers.

(** [c.isspace()] for a [str] character below code point 256. *)
Definition isspace (c : ascii) : bool :=
  match N_of_ascii c with
  | 9 | 10 | 11 | 12 | 13 | 28 | 29 | 30 | 31 | 32 | 133 | 160 => true
  | _ => false
  end%N.

Fixpoint lstrip (s : string) : string :=
  match s with
  | String c s' => if isspace c then lstrip s' else s
  | EmptyString => EmptyString
  end.

Fixpoint rstrip (s : string) : string :=
  match s with
  | String c s' =>
      match rstrip s' with
      | EmptyString => if isspace c then EmptyString else String c EmptyString
      | r => String c r
      end
  | EmptyString => EmptyString
  end.

(** [s.strip()] on a [str] *)
Definition strip (s : string) : string := lstrip (rstrip s).

(** [self.pylint_cmd], [self.eslint_cmd] and [self.linter_cmd] *)
Definition linter_cmd (k : backend) : list string :=
  match k with
  | Python => ["pylint"; "--output-format=json"]
  | JavaScript => ["npx"; "eslint"; "--format=json"]
  | Java => ["java"; "-jar"; "/path/to/checkstyle.jar"; "-f"; "json"]
  end.

Section Linting.

Variable env : os_env.

(** [json.loads] on a [str]: the value, or [json.JSONDecodeError], a
    [ValueError], with its text. *)
Variable json_loads : string -> result json.

(** [str(e)] *)
Variable str_exn : exn -> string.

(** [run_linter] from the log line to [textDocument/didOpen]. *)
Definition open_document (file_path : string) : M unit :=
  logger INFO (Note "Running linter on file");;
  ensure_running env;;
  content ← lift (read_text env file_path);
  k ← gets kind;
  _send_notification "textDocument/didOpen"
    (JDict [("textDocument", JDict [("uri", JStr (_path_to_uri env file_path));
                                    ("languageId", JStr (language_id k file_path));
                                    ("version", JInt 1);
                                    ("text", JStr content)])]).

(** The inner [try] of approach 2: parse the output of the linter. *)
Definition parse_output (stdout : string) : M json :=
  try_catch
    (results ← (if bool_decide (strip stdout = "") then mret (JList [])
                else lift (json_loads stdout));
     mret (JDict [("issues", results); ("success", JBool true)]))
    (fun e =>
       match e with
       | ValueError msg =>
           logger ERROR (Caught "Error parsing linter output" e);;
           mret (JDict [("issues", JList []);
                        ("success", JBool false);
                        ("error", JStr ("Error parsing linter output: " +:+ str_exn e));
                        ("raw_output", JStr stdout)])
       | _ => raise e
       end).

(** Approach 2, the outer [try]: run the linter on the file. *)
Definition run_external (file_path : string) : M json :=
  k ← gets kind;
  workspace ← gets workspace_path;
  try_catch
    ('(returncode, stdout) ←
        lift (subprocess_run env (linter_cmd k ++ [file_path]) (Some workspace) None);
     (match k with
      | Python =>
          if negb (returncode =? 0) && negb (returncode =? 1)
          then logger ERROR (Failure "Pylint error")
          else mret tt
      | _ => mret tt
      end);;
     parse_output stdout)
    (fun e =>
       logger ERROR (Caught "Error running linter" e);;
       mret (JDict [("issues", JList []);
                    ("success", JBool false);
                    ("error", JStr (str_exn e))])).

(** [run_linter] of the three concrete managers. *)
Definition run_linter (file_path : string) : M json :=
  if negb (isfile env file_path) then raise (ValueError "File not found")
  else
    open_document file_path;;
    run_external file_path.

End Linting.

End Linter.

(** ** [MultiLanguageServer.start] and the command line *)

Module Cli.
Import Py Json Session.

(** The namespace that [parse_args] returns; [action] is [None] when no
    subcommand is given. *)
Record namespace := Namespace {
  workspace : string;
  action : option string;
  file : string;
  line : Z;
  character : Z;
  debug : bool
}.

(** What [print] is called with: a dict or list, or a text. *)
Inductive output :=
| Shown (value : json)
| Text (s : string).

(** How [main] ends: with an exit code, or in the loop of the [server]
    action, which only an interrupt leaves. *)
Inductive outcome :=
| Exit (code : Z) (printed : list output)
| Serving (svc : Service.service) (printed : list output).

(** [parsed_args.action == name] *)
Definition action_is (args : namespace) (name : string) : bool :=
  bool_decide (action args = Some name).

Section Main.

Variable env : Managers.os_env.
Variable isdir : string -> bool.
Variable walk : string -> list string.
Variable json_loads : string -> result json.
Variable str_exn : exn -> string.

(** [MultiLanguageServer.__init__]: the workspace manager is built first and
    may raise; no method of the service uses it afterwards. [abspath] of
    the absolute path that the managers receive is that path. *)
Definition new_service (workspace_path : string) : result Service.service :=
  let path := Managers.abspath env workspace_path in
  match Workspace.init (Workspace.FileSystem (Managers.abspath env) isdir walk) path with
  | Ret _ => Ret (Service.init path)
  | Raise e => Raise e
  end.

(** [MultiLanguageServer.start]: the managers in the order of the dict
    literal of the constructor. *)
Fixpoint start_managers (languages : list string) (svc : Service.service)
  : result unit * Service.service :=
  match languages with
  | [] => (Ret tt, svc)
  | lang :: languages' =>
      match Service.on_manager lang (Managers.start env) svc with
      | (Ret _, svc') => start_managers languages' svc'
      | (Raise e, svc') => (Raise e, svc')
      end
  end.

Definition start (svc : Service.service) : result unit * Service.service :=
  start_managers ["python"; "javascript"] svc.

(** The [try] block of [main]. *)
Definition run_action (args : namespace) (svc : Service.service) : result outcome :=
  if action_is args "lint" then
    match Service.run_linter (Linter.run_linter env json_loads str_exn) (file args) svc with
    | (Ret result, _) => Ret (Exit 0 [Shown result])
    | (Raise e, _) => Raise e
    end
  else if action_is args "format" then
    match Service.run_formatter env (file args) svc with
    | (Ret formatted, _) => Ret (Exit 0 [Text formatted])
    | (Raise e, _) => Raise e
    end
  else if action_is args "definition" then
    match Service.get_definition env (file args) (line args) (character args) svc with
    | (Ret result, _) => Ret (Exit 0 [Shown result])
    | (Raise e, _) => Raise e
    end
  else if action_is args "references" then
    match Service.get_references env (file args) (line args) (character args) svc with
    | (Ret result, _) => Ret (Exit 0 [Shown result])
    | (Raise e, _) => Raise e
    end
  else if action_is args "server" then
    match start svc with
    | (Ret _, svc') =>
        Ret (Serving svc'
               [Text "Multi-Language LSP Interface server started for workspace";
                Text "Press Ctrl+C to stop the server"])
    | (Raise e, _) => Raise e
    end
  else
    Ret (Exit 1 [Text "Please specify an action. Use --help for available commands."]).

(** [main] on the parsed arguments: the service is built outside the [try],
    every exception of the action is logged and turned into exit code 1. *)
Definition main (args : namespace) : result outcome :=
  match new_service (workspace args) with
  | Raise e => Raise e
  | Ret svc =>
      match run_action args svc with
      | Ret o => Ret o
      | Raise _ => Ret (Exit 1 [])
      end
  end.

End Main.

End Cli.

(** * Properties *)

Import Py Json Session Framing Edits Managers.

(** ** Running methods: equations for sequencing *)

Lemma run_bind {A B} (m : M A) (k : A -> M B) (st : manager) :
  (m ≫= k) st
  = match m st with
    | (Ret a, st') => k a st'
    | (Raise e, st') => (Raise e, st')
    end.
Proof. reflexivity. Qed.

Lemma run_bind_ret {A B} (m : M A) (k : A -> M B) (st st' : manager) (a : A) :
  m st = (Ret a, st') -> (m ≫= k) st = k a st'.
Proof. intros H. now rewrite run_bind, H. Qed.


(** Equations for the primitive statements. *)
Lemma run_gets {A} (f : manager -> A) (st : manager) : gets f st = (Ret (f st), st).
Proof. reflexivity. Qed.

Lemma run_modify (f : manager -> manager) (st : manager) : modify f st = (Ret tt, f st).
Proof. reflexivity. Qed.

Lemma run_logger (lvl : log_level) (ev : log_event) (st : manager) :
  logger lvl ev st = (Ret tt, add_log lvl ev st).
Proof. reflexivity. Qed.

Lemma run_lift_ret {A} (a : A) (st : manager) : lift (Ret a) st = (Ret a, st).
Proof. reflexivity. Qed.

Lemma run_mret {A} (a : A) (st : manager) : (mret a : M A) st = (Ret a, st).
Proof. reflexivity. Qed.

Lemma run_send_notification (method : string) (params : json) (st : manager) :
  _send_notification method params st
  = (Ret tt, set_write_queue (write_queue st ++ [notification method params]) st).
Proof. reflexivity. Qed.

Lemma run_try_ret {A} (m : M A) (h : exn -> M A) (st st' : manager) (a : A) :
  m st = (Ret a, st') -> try_catch m h st = (Ret a, st').
Proof. intros H. unfold try_catch. now rewrite H. Qed.

Lemma run_try_raise {A} (m : M A) (h : exn -> M A) (st st' : manager) (e : exn) :
  m st = (Raise e, st') -> try_catch m h st = h e st'.
Proof. intros H. unfold try_catch. now rewrite H. Qed.

(** Runs the primitive statement at the head of a sequence. *)
Ltac run_step :=
  first
    [ rewrite (run_bind_ret _ _ _ _ _ (run_gets _ _))
    | rewrite (run_bind_ret _ _ _ _ _ (run_modify _ _))
    | rewrite (run_bind_ret _ _ _ _ _ (run_logger _ _ _))
    | rewrite (run_bind_ret _ _ _ _ _ (run_lift_ret _ _))
    | rewrite (run_bind_ret _ _ _ _ _ (run_mret _ _))
    | rewrite (run_bind_ret _ _ _ _ _ (run_send_notification _ _ _)) ];
  cbv beta.

(** ** The class and the workspace of a manager never change *)

Lemma same_manager_refl (st : manager) : same_manager st st.
Proof. now split. Qed.

Lemma same_manager_trans (st1 st2 st3 : manager) :
  same_manager st1 st2 -> same_manager st2 st3 -> same_manager st1 st3.
Proof. intros [H1 H2] [H3 H4]. split; congruence. Qed.

Lemma keeps_ret {A} (a : A) : keeps_manager (mret a : M A).
Proof. intros st. apply same_manager_refl. Qed.

Lemma keeps_raise {A} (e : exn) : keeps_manager (raise e : M A).
Proof. intros st. apply same_manager_refl. Qed.

Lemma keeps_lift {A} (r : result A) : keeps_manager (lift r).
Proof. intros st. apply same_manager_refl. Qed.

Lemma keeps_gets {A} (f : manager -> A) : keeps_manager (gets f).
Proof. intros st. apply same_manager_refl. Qed.

Lemma keeps_modify (f : manager -> manager) :
  (forall st, same_manager st (f st)) -> keeps_manager (modify f).
Proof. intros H st. apply H. Qed.

Lemma keeps_bind {A B} (m : M A) (k : A -> M B) :
  keeps_manager m -> (forall a, keeps_manager (k a)) -> keeps_manager (m ≫= k).
Proof.
  intros Hm Hk st. rewrite run_bind. specialize (Hm st).
  destruct (m st) as [[a|e] st']; cbn in *; [|exact Hm].
  eapply same_manager_trans; [exact Hm | apply Hk].
Qed.

Lemma keeps_try_catch {A} (m : M A) (h : exn -> M A) :
  keeps_manager m -> (forall e, keeps_manager (h e)) -> keeps_manager (try_catch m h).
Proof.
  intros Hm Hh st. unfold try_catch. specialize (Hm st).
  destruct (m st) as [[a|e] st']; cbn in *; [exact Hm|].
  eapply same_manager_trans; [exact Hm | apply Hh].
Qed.

Lemma keeps_logger (lvl : log_level) (ev : log_event) : keeps_manager (logger lvl ev).
Proof. intros st. now destruct st. Qed.

Lemma handle_notification_same (st st' : manager) (n : message) :
  _handle_notification st n = Ret st' -> same_manager st st'.
Proof.
  unfold _handle_notification. intros H.
  destruct (eq_str _ _); [|injection H as <-; apply same_manager_refl].
  destruct (get _ "type" _) as [message_type|]; [|discriminate].
  destruct (get _ "message" _) as [text|]; [|discriminate].
  cbn [bind] in H.
  destruct (log_levels_get message_type) as [level|]; [|discriminate].
  injection H as <-. now destruct st.
Qed.

Lemma process_lsp_message_same (st st' : manager) (m : message) :
  _process_lsp_message st m = Ret st' -> same_manager st st'.
Proof.
  unfold _process_lsp_message. intros H.
  destruct (has (msg_id m) && has (msg_result m)).
  - destruct (request_callbacks st !! _); injection H as <-; now destruct st.
  - destruct (has (msg_method m) && negb (has (msg_id m))).
    + now apply handle_notification_same in H.
    + injection H as <-. apply same_manager_refl.
Qed.

Lemma reader_deliver_same (st : manager) (m : message) :
  same_manager st (reader_deliver st m).
Proof.
  unfold reader_deliver.
  destruct (_process_lsp_message st m) as [st'|e] eqn:H.
  - now apply process_lsp_message_same in H.
  - now destruct st.
Qed.

Lemma reader_until_response_same (frames : list message) (st : manager) :
  same_manager st (reader_until_response frames st).
Proof.
  revert st. induction frames as [|m frames IH]; intros st; cbn [reader_until_response].
  - destruct (response_queue st); now destruct st.
  - destruct (response_queue st); [|now destruct st].
    destruct (reader_can_run st); [|now destruct st].
    eapply same_manager_trans; [apply reader_deliver_same | apply IH].
Qed.

Lemma response_queue_get_same (st : manager) :
  same_manager st (snd (response_queue_get st)).
Proof.
  unfold response_queue_get. cbv zeta.
  set (st1 := set_schedule _ st).
  assert (H1 : same_manager st st1) by now destruct st.
  set (st2 := reader_until_response _ st1).
  assert (H2 : same_manager st1 st2) by apply reader_until_response_same.
  pose proof (same_manager_trans _ _ _ H1 H2) as H.
  destruct (response_queue st2); cbn [snd]; [exact H|].
  eapply same_manager_trans; [exact H | now destruct st2].
Qed.

Lemma keeps_wait_response_sync (method : string) : keeps_manager (wait_response_sync method).
Proof.
  intros st. unfold wait_response_sync.
  pose proof (response_queue_get_same st) as H.
  destruct (response_queue_get st) as [[response|] st']; cbn [snd] in *; [exact H|].
  eapply same_manager_trans; [exact H | now destruct st'].
Qed.

Lemma keeps_write_queue_put (m : message) : keeps_manager (write_queue_put m).
Proof. intros st. now destruct st. Qed.

Lemma keeps_allocate_request (method : string) (params : json) :
  keeps_manager (allocate_request method params).
Proof. intros st. now destruct st. Qed.

Lemma keeps_put_request_sync (method : string) (params : json) :
  keeps_manager (put_request_sync method params).
Proof.
  apply keeps_bind; [apply keeps_allocate_request|]. intros [request_id req].
  apply keeps_bind; [apply keeps_write_queue_put|]. intros _. apply keeps_ret.
Qed.

Lemma keeps_send_request_sync (method : string) (params : json) :
  keeps_manager (_send_request_sync method params).
Proof.
  apply keeps_bind; [apply keeps_put_request_sync|].
  intros _. apply keeps_wait_response_sync.
Qed.

Lemma keeps_send_notification (method : string) (params : json) :
  keeps_manager (_send_notification method params).
Proof. apply keeps_write_queue_put. Qed.

Create HintDb keeps.
#[local] Hint Resolve keeps_ret keeps_raise keeps_lift keeps_gets keeps_logger
  keeps_allocate_request keeps_write_queue_put keeps_put_request_sync
  keeps_send_request_sync keeps_send_notification keeps_wait_response_sync : keeps.

(** Splits a method into its statements and closes what the hints know. *)
Ltac keeps_steps :=
  repeat first
    [ solve [auto with keeps]
    | apply keeps_bind; [|intros ?]
    | apply keeps_try_catch; [|intros ?]
    | match goal with
      | |- keeps_manager (if ?b then _ else _) => destruct b
      | |- keeps_manager (match ?x with _ => _ end) => destruct x
      end ].

#[local] Hint Extern 1 (keeps_manager (modify _)) =>
  apply keeps_modify; let st := fresh "st" in intros st; now destruct st : keeps.

Lemma keeps_initialize_lsp_server (env : os_env) : keeps_manager (_initialize_lsp_server env).
Proof. unfold _initialize_lsp_server. keeps_steps. Qed.

#[local] Hint Resolve keeps_initialize_lsp_server : keeps.

Lemma keeps_start_lsp_communication (env : os_env) :
  keeps_manager (_start_lsp_communication env).
Proof. unfold _start_lsp_communication. keeps_steps. Qed.

Lemma keeps_configure_server : keeps_manager _configure_server.
Proof. unfold _configure_server. keeps_steps. Qed.

#[local] Hint Resolve keeps_start_lsp_communication keeps_configure_server : keeps.

Lemma keeps_start (env : os_env) : keeps_manager (start env).
Proof. unfold start. keeps_steps. Qed.

#[local] Hint Resolve keeps_start : keeps.

Lemma keeps_ensure_running (env : os_env) : keeps_manager (ensure_running env).
Proof. unfold ensure_running. keeps_steps. Qed.

#[local] Hint Resolve keeps_ensure_running : keeps.

Lemma keeps_open_document (env : os_env) (file_path : string) :
  keeps_manager (open_document env file_path).
Proof. unfold open_document. keeps_steps. Qed.

Lemma keeps_lsp_formatting (document_uri content : string) :
  keeps_manager (lsp_formatting document_uri content).
Proof. unfold lsp_formatting. keeps_steps. Qed.

(** ** Notifications *)

(** C8, as the specification states it, fails when the severity is absent:
    [params.get("type", 4)] makes a log-message notification without a
    [type] member a debug record, not an info record. *)
Lemma log_message_without_type_is_debug :
  _handle_notification (Session.init JavaScript "/ws") Scenarios.log_message_without_type
  = Ret (add_log DEBUG (LspServerSays (JStr "indexing done"))
           (Session.init JavaScript "/ws"))
  /\ DEBUG <> INFO.
Proof. split; [reflexivity | discriminate]. Qed.

(** C8 (amended): a [window/logMessage] notification with integer severity
    1, 2, 3, 4 is logged at error, warning, info, debug; with any other
    integer, a string or null as severity it is logged at info; without a
    severity member it is logged at debug. *)
Theorem log_message_level (st : manager) (d : list (string * json)) :
  let text := default (JStr "") (dict_get d "message") in
  let logged lvl :=
    _handle_notification st (notification "window/logMessage" (JDict d))
    = Ret (add_log lvl (LspServerSays text) st) in
  match dict_get d "type" with
  | None => logged DEBUG
  | Some (JInt 1) => logged ERROR
  | Some (JInt 2) => logged WARNING
  | Some (JInt 3) => logged INFO
  | Some (JInt 4) => logged DEBUG
  | Some (JInt _) | Some (JStr _) | Some JNull => logged INFO
  | Some (JBool _) | Some (JList _) | Some (JDict _) => True
  end.
Proof.
  cbn zeta. unfold _handle_notification, notification. cbn.
  destruct (dict_get d "type") as [[| b | n | s | l | d']|]; cbn; try done.
  destruct n as [|[[[]|[]|]|[[]|[]|]|]|]; reflexivity.
Qed.

(** A notification without [params] is treated the same way. *)
Lemma log_message_without_params_is_debug (st : manager) :
  _handle_notification st (Message None (Some (JStr "window/logMessage")) None None None)
  = Ret (add_log DEBUG (LspServerSays (JStr "")) st).
Proof. reflexivity. Qed.

(** ** Classification of inbound messages *)

(** A message with an [id] and no [result] member changes nothing: no
    callback runs, nothing is queued, nothing is logged. *)
Lemma process_without_result_is_noop (st : manager) (m : message) :
  has (msg_id m) = true -> msg_result m = None ->
  _process_lsp_message st m = Ret st.
Proof.
  intros Hid Hres. unfold _process_lsp_message.
  rewrite Hid, Hres. cbn. now rewrite andb_false_r.
Qed.

(** C4 (code bug): an error response to the asynchronous request 1 is
    dropped: the callback registered for id 1 is not invoked and stays
    registered, and nothing reaches the response queue. *)
Theorem error_response_is_dropped :
  let st := Scenarios.awaiting_callback in
  let failure := Scenarios.method_not_found in
  request_callbacks st !! "1" = Some "on_definition"
  /\ _process_lsp_message st failure = Ret st
  /\ invoked (reader_deliver st failure) = []
  /\ response_queue (reader_deliver st failure) = []
  /\ request_callbacks (reader_deliver st failure) !! "1" = Some "on_definition".
Proof.
  cbn zeta.
  assert (H : _process_lsp_message Scenarios.awaiting_callback Scenarios.method_not_found
              = Ret Scenarios.awaiting_callback)
    by (apply process_without_result_is_noop; reflexivity).
  unfold reader_deliver. rewrite H.
  repeat split; reflexivity.
Qed.

(** A success response, by contrast, completes the callback registered
    under its id. *)
Lemma result_response_completes_callback (st : manager) (m : message) (i : rpc_id)
  (r : json) (cb : callback) :
  msg_id m = Some i -> msg_result m = Some r ->
  request_callbacks st !! str_id i = Some cb ->
  _process_lsp_message st m
  = Ret (set_invoked (invoked st ++ [(cb, m)])
           (set_request_callbacks (delete (str_id i) (request_callbacks st)) st)).
Proof.
  intros Hid Hres Hcb. unfold _process_lsp_message.
  rewrite Hid, Hres. cbn. now rewrite Hcb.
Qed.

(** ** Correlation of synchronous requests *)

(** C1 (code bug): two synchronous requests are outstanding with ids 2 and
    3; the backend answers 3 first, then 2. The caller that was given id 2
    receives the response with id 3, and the caller that was given id 3
    receives the response with id 2. *)
Theorem sync_responses_follow_arrival_order :
  let answer3 := Scenarios.response "3" (JList [Scenarios.location "/ws/b.js"]) in
  let answer2 := Scenarios.response "2" (JList [Scenarios.location "/ws/a.js"]) in
  let '(id_a, st1) := put_request_sync "textDocument/definition" (JStr "a") Scenarios.ready in
  let '(id_b, st2) := put_request_sync "textDocument/definition" (JStr "b") st1 in
  let st3 := set_schedule [[answer3; answer2]; []] st2 in
  let '(got_a, st4) := wait_response_sync "textDocument/definition" st3 in
  let '(got_b, st5) := wait_response_sync "textDocument/definition" st4 in
  id_a = Ret "2" /\ got_a = Ret answer3
  /\ id_b = Ret "3" /\ got_b = Ret answer2.
Proof. vm_compute. repeat split; reflexivity. Qed.

(** C2 (code bug): request 2 gets no answer before its deadline and returns
    the empty dict, leaving the queue empty; its answer arrives afterwards
    and is handed to the next synchronous request, which has id 3. *)
Theorem late_response_reaches_next_request :
  let late := Scenarios.response "2" (JList [Scenarios.location "/ws/a.js"]) in
  let st0 := set_schedule [[]; [late]] Scenarios.ready in
  let '(first, st1) := _send_request_sync "textDocument/definition" (JStr "a") st0 in
  let '(id_next, st2) := put_request_sync "textDocument/references" (JStr "b") st1 in
  let '(second, st3) := wait_response_sync "textDocument/references" st2 in
  first = Ret empty_message /\ response_queue st1 = []
  /\ id_next = Ret "3" /\ second = Ret late.
Proof. vm_compute. repeat split; reflexivity. Qed.

(** ** The edit applier *)

(** C3 (code bug): the sort key is the start line alone and the sort is
    stable, so two edits on one line are applied in the order received. In
    document order the second edit lands on shifted offsets; in reverse
    order the result is the intended one. *)
Theorem same_line_edits_depend_on_order :
  sorted_edits (JList [Scenarios.edit_hello; Scenarios.edit_world])
  = Ret [Scenarios.edit_hello; Scenarios.edit_world]
  /\ apply_text_edits "hello world" (JList [Scenarios.edit_hello; Scenarios.edit_world])
     = Ret "goodbymoonld"
  /\ apply_text_edits "hello world" (JList [Scenarios.edit_world; Scenarios.edit_hello])
     = Ret "goodbye moon".
Proof. vm_compute. repeat split; reflexivity. Qed.

(** ** Framing *)

Lemma append_empty (s : string) : EmptyString +:+ s = s.
Proof. reflexivity. Qed.

Lemma append_String (c : ascii) (s t : string) :
  String c s +:+ t = String c (s +:+ t).
Proof. reflexivity. Qed.

Lemma readline_line (l rest : string) :
  contains LF l = false ->
  readline (l +:+ String LF rest) = (l +:+ String LF EmptyString, rest).
Proof.
  induction l as [|c l IH]; intros H.
  - rewrite !append_empty. cbn [readline]. now rewrite bool_decide_eq_true_2.
  - cbn [contains] in H. apply orb_false_iff in H as [Hc Hl].
    rewrite !append_String. cbn [readline]. rewrite Hc, (IH Hl). reflexivity.
Qed.

Lemma take_chars_app (body rest : string) :
  take_chars (String.length body) (body +:+ rest) = body.
Proof.
  induction body as [|c body IH].
  - rewrite append_empty. now destruct rest.
  - rewrite append_String. cbn [String.length take_chars]. now rewrite IH.
Qed.

Lemma drop_chars_app (body rest : string) :
  drop_chars (String.length body) (body +:+ rest) = rest.
Proof.
  induction body as [|c body IH].
  - rewrite append_empty. now destruct rest.
  - rewrite append_String. cbn [String.length drop_chars]. exact IH.
Qed.

Lemma take_chars_prefix (k : nat) (body rest : string) :
  (k <= String.length body)%nat ->
  take_chars k (body +:+ rest) = take_chars k body.
Proof.
  revert body. induction k as [|k IH]; intros body Hk.
  - now destruct body, rest.
  - destruct body as [|c body]; cbn [String.length] in Hk; [lia|].
    rewrite append_String. cbn [take_chars]. rewrite IH by lia. reflexivity.
Qed.

Lemma drop_chars_prefix (k : nat) (body rest : string) :
  (k <= String.length body)%nat ->
  drop_chars k (body +:+ rest) = drop_chars k body +:+ rest.
Proof.
  revert body. induction k as [|k IH]; intros body Hk.
  - now destruct body, rest.
  - destruct body as [|c body]; cbn [String.length] in Hk; [lia|].
    rewrite append_String. cbn [drop_chars]. apply IH. lia.
Qed.

(** What one [read] of the body returns: the part of the body that the pipe
    holds; the remainder of the body stays in the stream. *)
Lemma read_delivered (more : nat) (body rest : string) :
  read more (len body) (body +:+ rest)
  = (take_chars (Nat.min (String.length body) (S more)) body,
     drop_chars (Nat.min (String.length body) (S more)) body +:+ rest).
Proof.
  unfold read, len.
  destruct (Z.ltb_spec (Z.of_nat (String.length body)) 0) as [H|_]; [lia|].
  cbv zeta. rewrite Nat2Z.id.
  now rewrite take_chars_prefix, drop_chars_prefix by lia.
Qed.

(** When the pipe holds the whole body, the read returns it. *)
Lemma read_body (more : nat) (body rest : string) :
  (String.length body <= S more)%nat ->
  read more (len body) (body +:+ rest) = (body, rest).
Proof.
  intros Hmore. unfold read, len.
  destruct (Z.ltb_spec (Z.of_nat (String.length body)) 0) as [H|_]; [lia|].
  cbv zeta. rewrite Nat2Z.id, Nat.min_l by exact Hmore.
  now rewrite take_chars_app, drop_chars_app.
Qed.

Import Writer Invariants.

Lemma digit_value_pretty (d : N) :
  (d < 10)%N -> digit_value (pretty_N_char d) = Some (Z.of_N d).
Proof.
  intros H.
  assert (d = 0 \/ d = 1 \/ d = 2 \/ d = 3 \/ d = 4 \/ d = 5 \/ d = 6 \/ d = 7
          \/ d = 8 \/ d = 9)%N as Hd by lia.
  repeat (destruct Hd as [->|Hd]; [reflexivity|]). now subst.
Qed.

(** Reading the digits [pretty] wrote gives the number back. *)
Lemma parse_digits_pretty_go (x : N) :
  (0 < x)%N ->
  exists k, forall acc after s,
    parse_digits acc after (pretty_N_go x s) = parse_digits (acc * k + Z.of_N x) true s.
Proof.
  induction (N.lt_wf_0 x) as [x _ IH]. intros Hx.
  pose proof (N.mod_lt x 10 ltac:(lia)) as Hmod.
  pose proof (N.div_mod x 10 ltac:(lia)) as Hdiv.
  destruct (decide (x `div` 10 = 0)%N) as [Hz|Hnz].
  - exists 10. intros acc after s.
    rewrite pretty_N_go_step, Hz, pretty_N_go_0 by done.
    cbn [parse_digits]. rewrite digit_value_pretty by done.
    f_equal. lia.
  - destruct (IH (x `div` 10)%N) as [k Hk]; [apply N.div_lt; lia | lia |].
    exists (k * 10). intros acc after s.
    rewrite pretty_N_go_step, Hk by done.
    cbn [parse_digits]. rewrite digit_value_pretty by done.
    f_equal. lia.
Qed.

Lemma parse_digits_str_int (n : Z) :
  0 <= n -> parse_digits 0 false (str_int n) = Some n.
Proof.
  intros Hn. unfold str_int, pretty, pretty_Z.
  destruct n as [|p|p]; [reflexivity| |lia].
  unfold pretty, pretty_positive, pretty, pretty_N.
  case_decide; [discriminate|].
  destruct (parse_digits_pretty_go (N.pos p)) as [k Hk]; [lia|].
  rewrite Hk. cbn [parse_digits]. f_equal.
Qed.

Lemma pretty_go_digits (x : N) (s : string) :
  all_chars is_digit s = true -> all_chars is_digit (pretty_N_go x s) = true.
Proof.
  revert s. induction (N.lt_wf_0 x) as [x _ IH]. intros s Hs.
  destruct (decide (x = 0)%N) as [->|Hx]; [now rewrite pretty_N_go_0|].
  rewrite pretty_N_go_step by lia. apply IH; [apply N.div_lt; lia|].
  cbn [all_chars]. rewrite Hs, andb_true_r.
  unfold is_digit. now rewrite digit_value_pretty by (apply N.mod_lt; lia).
Qed.

Lemma pretty_go_not_empty (x : N) (s : string) :
  (0 < x)%N -> pretty_N_go x s <> EmptyString.
Proof.
  revert s. induction (N.lt_wf_0 x) as [x _ IH]. intros s Hx.
  rewrite pretty_N_go_step by done.
  destruct (decide (x `div` 10 = 0)%N) as [->|Hnz]; [now rewrite pretty_N_go_0|].
  apply IH; [apply N.div_lt; lia | now apply N.neq_0_lt_0].
Qed.

Lemma str_int_digits (n : Z) :
  0 <= n -> all_chars is_digit (str_int n) = true /\ str_int n <> EmptyString.
Proof.
  intros Hn. unfold str_int, pretty, pretty_Z.
  destruct n as [|p|p]; [now split| |lia].
  unfold pretty, pretty_positive, pretty, pretty_N.
  case_decide; [discriminate|]. split.
  - now apply pretty_go_digits.
  - now apply pretty_go_not_empty.
Qed.

Lemma contains_none (p : ascii -> bool) (c : ascii) (s : string) :
  all_chars p s = true -> p c = false -> contains c s = false.
Proof.
  intros Hs Hc. induction s as [|x s IH]; [reflexivity|].
  cbn [all_chars contains] in *. apply andb_true_iff in Hs as [Hx Hs].
  rewrite (IH Hs), orb_false_r. apply bool_decide_eq_false. now intros ->; congruence.
Qed.

Lemma contains_append (c : ascii) (s t : string) :
  contains c (s +:+ t) = contains c s || contains c t.
Proof.
  induction s as [|x s IH]; [reflexivity|].
  rewrite append_String. cbn [contains]. now rewrite IH, orb_assoc.
Qed.

Lemma append_assoc (s t u : string) : (s +:+ t) +:+ u = s +:+ (t +:+ u).
Proof.
  induction s as [|x s IH]; [reflexivity|]. rewrite !append_String. now rewrite IH.
Qed.

Lemma rstrip_spaces (w : string) :
  all_chars is_space w = true -> rstrip w = EmptyString.
Proof.
  induction w as [|c w IH]; [reflexivity|]. cbn [all_chars rstrip].
  intros [Hc Hw]%andb_true_iff. now rewrite (IH Hw), Hc.
Qed.

Lemma rstrip_keeps (d w : string) :
  all_chars (fun c => negb (is_space c)) d = true ->
  d <> EmptyString ->
  all_chars is_space w = true ->
  rstrip (d +:+ w) = d.
Proof.
  intros Hd Hne Hw. induction d as [|c d IH]; [done|].
  cbn [all_chars] in Hd. apply andb_true_iff in Hd as [Hc Hd].
  rewrite append_String. cbn [rstrip].
  destruct d as [|c' d].
  - rewrite append_empty, (rstrip_spaces w Hw).
    now destruct (is_space c).
  - now rewrite (IH Hd).
Qed.

Lemma rstrip_append (a b : string) :
  rstrip b <> EmptyString -> rstrip (a +:+ b) = a +:+ rstrip b.
Proof.
  intros Hb. induction a as [|x a IH]; [reflexivity|].
  rewrite !append_String. cbn [rstrip]. rewrite IH.
  destruct a; [rewrite append_empty|rewrite append_String]; [now destruct (rstrip b)|done].
Qed.

Lemma digits_not_space (d : string) :
  all_chars is_digit d = true -> all_chars (fun c => negb (is_space c)) d = true.
Proof.
  induction d as [|c d IH]; [reflexivity|]. cbn [all_chars].
  intros [Hc Hd]%andb_true_iff. rewrite (IH Hd), andb_true_r.
  destruct c as [[] [] [] [] [] [] [] []]; try discriminate Hc; reflexivity.
Qed.

Lemma split_no_separator (sep : ascii) (s : string) :
  contains sep s = false -> split sep s = [s].
Proof.
  induction s as [|c s IH]; [reflexivity|]. cbn [contains split].
  intros [Hc Hs]%orb_false_iff. now rewrite Hc, (IH Hs).
Qed.

Lemma int_of_bytes_digits (d : string) (n : Z) :
  all_chars is_digit d = true ->
  d <> EmptyString ->
  parse_digits 0 false d = Some n ->
  int_of_bytes (String " " d) = Ret n.
Proof.
  intros Hd Hne Hparse. unfold int_of_bytes.
  assert (Hstrip : strip (String " " d) = d).
  { unfold strip. cbn [rstrip].
    rewrite <- (append_empty d) at 1.
    replace (EmptyString +:+ d) with (d +:+ EmptyString)
      by (rewrite append_empty; clear; induction d as [|c d IH];
          [reflexivity | now rewrite append_String, IH]).
    rewrite (rstrip_keeps d EmptyString (digits_not_space d Hd) Hne eq_refl).
    destruct d as [|c d]; [done|]. cbn [lstrip].
    change (is_space " ") with true. cbv iota.
    cbn [all_chars] in Hd. apply andb_true_iff in Hd as [Hc _].
    destruct c as [[] [] [] [] [] [] [] []]; try discriminate Hc; reflexivity. }
  rewrite Hstrip. destruct d as [|c d]; [done|].
  cbn [all_chars] in Hd. apply andb_true_iff in Hd as [Hc _].
  destruct c as [[] [] [] [] [] [] [] []]; try discriminate Hc;
    cbv beta iota zeta; now rewrite Hparse.
Qed.

(** The header line the writer emits parses to the length it announces. *)
Lemma header_line_parses (n : Z) :
  0 <= n ->
  header_content_length
    (strip (("Content-Length: " +:+ str_int n +:+ String CR EmptyString)
            +:+ String LF EmptyString))
  = Some (Ret n).
Proof.
  intros Hn. destruct (str_int_digits n Hn) as [Hd Hne].
  set (d := str_int n) in *.
  assert (Hstrip : strip (("Content-Length: " +:+ d +:+ String CR EmptyString)
                          +:+ String LF EmptyString)
                   = "Content-Length: " +:+ d).
  { unfold strip. rewrite !append_assoc.
    pose proof (rstrip_keeps d (String CR EmptyString +:+ String LF EmptyString)
                  (digits_not_space d Hd) Hne eq_refl) as Hkeep.
    rewrite rstrip_append; rewrite Hkeep; [reflexivity | exact Hne]. }
  rewrite Hstrip. unfold header_content_length.
  change (startswith ("Content-Length: " +:+ d) "Content-Length:") with true. cbv iota.
  assert (Hsplit : split ":" ("Content-Length: " +:+ d) = ["Content-Length"; String " " d]).
  { change ("Content-Length: " +:+ d) with ("Content-Length" +:+ String ":" (String " " d)).
    assert (Hrest : split ":" (String " " d) = [String " " d]).
    { apply split_no_separator. cbn [contains].
      now rewrite (contains_none is_digit ":" d Hd eq_refl). }
    change (split ":" ("Content-Length" +:+ String ":" (String " " d)))
      with ("Content-Length" :: split ":" (String " " d)).
    now rewrite Hrest. }
  rewrite Hsplit. cbn [lookup list_lookup].
  now rewrite (int_of_bytes_digits d n Hd Hne (parse_digits_str_int n Hn)).
Qed.

Lemma header_line_has_no_LF (n : Z) :
  0 <= n ->
  contains LF ("Content-Length: " +:+ str_int n +:+ String CR EmptyString) = false.
Proof.
  intros Hn. destruct (str_int_digits n Hn) as [Hd _].
  change ("Content-Length: " +:+ str_int n +:+ String CR EmptyString)
    with ("Content-Length: " +:+ (str_int n +:+ String CR EmptyString)).
  rewrite !contains_append, (contains_none is_digit LF _ Hd eq_refl). reflexivity.
Qed.

Lemma len_nonnegative (s : string) : 0 <= len s.
Proof. unfold len. lia. Qed.

(** The stream after a header line for [n] bytes, laid out line by line. *)
Lemma header_line_read (n : Z) (rest : string) :
  0 <= n ->
  readline (("Content-Length: " +:+ str_int n +:+ String CR EmptyString)
            +:+ String LF rest)
  = (("Content-Length: " +:+ str_int n +:+ String CR EmptyString)
     +:+ String LF EmptyString, rest).
Proof. intros Hn. apply readline_line. now apply header_line_has_no_LF. Qed.

(** C5, as the specification states it, fails for the Python manager: its
    constructor takes the workspace path and nothing else, no count is
    configured anywhere, and yet one more line is skipped. Of two frames in
    the standard format the reader takes the line holding the first body as
    that extra line and the blank line of the second frame as the body. *)
Lemma python_manager_skips_a_line_unconfigured :
  language_of (kind (Session.init Python "/ws")) = "python"
  /\ _lsp_reader_iteration "python" 1 (frame "{}" +:+ frame "[]")
     = Dispatch (String CR (String LF EmptyString)) "[]".
Proof. split; reflexivity. Qed.

(** C5 (amended): the number of lines skipped after the line that follows
    the header is fixed by the language of the manager and cannot be
    configured: one line for [python], none for every other language. After
    the line [Content-Length: N], the line that follows it and, for
    [python] only, one more line, the reader issues one read of [N] bytes;
    when the pipe delivers them in that read, the body is exactly the [N]
    bytes that follow and the stream is left at the byte after them. *)
Theorem reader_skip_is_fixed_by_language
  (language blank extra body rest : string) (more : nat) :
  contains LF blank = false ->
  contains LF extra = false ->
  (String.length body <= S more)%nat ->
  _lsp_reader_iteration language more
    (("Content-Length: " +:+ str_int (len body) +:+ String CR EmptyString)
     +:+ String LF
           (blank +:+ String LF
              ((if bool_decide (language = "python")
                then extra +:+ String LF EmptyString
                else EmptyString)
               +:+ (body +:+ rest))))
  = Dispatch body rest.
Proof.
  intros Hblank Hextra Hmore. unfold _lsp_reader_iteration.
  rewrite (header_line_read _ _ (len_nonnegative body)).
  rewrite (header_line_parses _ (len_nonnegative body)).
  case_bool_decide as Hline.
  { pose proof (header_line_parses _ (len_nonnegative body)) as H.
    rewrite Hline in H. discriminate. }
  rewrite (readline_line _ _ Hblank).
  case_bool_decide as Hlang.
  - rewrite append_assoc, append_String, append_empty.
    rewrite (readline_line _ _ Hextra). cbn [snd].
    now rewrite (read_body more body rest Hmore).
  - rewrite append_empty. now rewrite (read_body more body rest Hmore).
Qed.

Lemma reader_skip_is_fixed_by_language_witness :
  _lsp_reader_iteration "javascript" 1
    (Scenarios.header_line +:+ String LF
       (Scenarios.blank_line +:+ String LF ("{}" +:+ Scenarios.next_frame)))
  = Dispatch "{}" Scenarios.next_frame.
Proof.
  apply (reader_skip_is_fixed_by_language "javascript" Scenarios.blank_line
           EmptyString "{}" Scenarios.next_frame 1).
  - reflexivity.
  - reflexivity.
  - cbn [String.length]. lia.
Defined.

(** ** The Python manager's lookups *)

Lemma python_has_no_send_lsp_request :
  has_attribute Python "_send_lsp_request" = false.
Proof. reflexivity. Qed.

(** C9: on a Python manager whose server process is running,
    [get_definition] and [get_references] raise [AttributeError] for every
    path and position: both call [self._send_lsp_request], which no class
    and no constructor defines. *)
Theorem python_lookups_raise_attribute_error
  (env : os_env) (st : manager) (file_path : string) (line character : Z) :
  kind st = Python ->
  is_running st = true ->
  fst (call_get_definition env file_path line character st)
  = Raise (AttributeError "_send_lsp_request")
  /\ fst (call_get_references env file_path line character st)
     = Raise (AttributeError "_send_lsp_request").
Proof.
  intros Hkind Hrun.
  destruct st as [k ws [[|code]|] cbs next rq wq run ra ib sch inv lg];
    cbn in Hkind, Hrun; try discriminate; subst k.
  split; reflexivity.
Qed.

Lemma python_lookups_raise_attribute_error_witness :
  let st := set_server_process (Some Alive) (Session.init Python "/ws") in
  fst (call_get_definition Scenarios.env_ok "/ws/a.py" 3 7 st)
  = Raise (AttributeError "_send_lsp_request")
  /\ fst (call_get_references Scenarios.env_ok "/ws/a.py" 3 7 st)
     = Raise (AttributeError "_send_lsp_request").
Proof.
  exact (python_lookups_raise_attribute_error Scenarios.env_ok
           (set_server_process (Some Alive) (Session.init Python "/ws"))
           "/ws/a.py" 3 7 eq_refl eq_refl).
Defined.

(** Whatever the state of a Python manager, its two lookups return nothing:
    either [start] raises, or the call of [_send_lsp_request] does. *)
Lemma python_lookups_never_return
  (env : os_env) (st : manager) (file_path : string) (line character : Z) :
  kind st = Python ->
  raises (fst (call_get_definition env file_path line character st))
  /\ raises (fst (call_get_references env file_path line character st)).
Proof.
  intros Hkind.
  assert (Hcall : forall st0 method params, kind st0 = Python ->
            call_request_method "_send_lsp_request" method params st0
            = (Raise (AttributeError "_send_lsp_request"), st0)).
  { intros st0 method params H0. unfold call_request_method. run_step.
    rewrite H0, python_has_no_send_lsp_request. reflexivity. }
  assert (Hrun : forall ev,
            match ensure_running env (add_log INFO ev st) with
            | (Ret _, st1) => kind st1 = Python
            | (Raise _, _) => True
            end).
  { intros ev. pose proof (keeps_ensure_running env (add_log INFO ev st)) as [Hk _].
    destruct (ensure_running env (add_log INFO ev st)) as [[u|e] st1]; [|exact I].
    cbn [snd] in Hk. now rewrite Hk. }
  split.
  - unfold call_get_definition. run_step. rewrite Hkind.
    unfold python_get_definition. run_step.
    specialize (Hrun (Note "Getting definition")).
    rewrite run_bind.
    destruct (ensure_running env _) as [[u|e] st1]; [|exact I].
    cbv beta zeta. rewrite run_bind, (Hcall st1 _ _ Hrun). exact I.
  - unfold call_get_references. run_step. rewrite Hkind.
    unfold python_get_references. run_step.
    specialize (Hrun (Note "Getting references")).
    rewrite run_bind.
    destruct (ensure_running env _) as [[u|e] st1]; [|exact I].
    cbv beta zeta. rewrite run_bind, (Hcall st1 _ _ Hrun). exact I.
Qed.

(** ** The service *)

(** C10: in a service that holds a [python] and a [javascript] manager and
    no [java] manager, as the constructor builds it, [get_server_for_file]
    raises [KeyError] for every path, and so do the four operations of
    the service, which leave the service as it was. *)
Theorem every_route_raises_key_error
  (env : os_env) (linter : string -> M json) (svc : Service.service)
  (file_path : string) (line character : Z) :
  is_Some (Service.server_managers svc !! "python") ->
  is_Some (Service.server_managers svc !! "javascript") ->
  Service.server_managers svc !! "java" = None ->
  Service.get_server_for_file svc file_path = Raise (KeyError "java")
  /\ Service.run_linter linter file_path svc = (Raise (KeyError "java"), svc)
  /\ Service.run_formatter env file_path svc = (Raise (KeyError "java"), svc)
  /\ Service.get_definition env file_path line character svc = (Raise (KeyError "java"), svc)
  /\ Service.get_references env file_path line character svc = (Raise (KeyError "java"), svc).
Proof.
  intros [py Hpy] [js Hjs] Hjava.
  assert (H : Service.get_server_for_file svc file_path = Raise (KeyError "java")).
  { unfold Service.get_server_for_file, Service.server_managers_getitem.
    rewrite Hpy, Hjs, Hjava. reflexivity. }
  unfold Service.run_linter, Service.run_formatter, Service.get_definition,
    Service.get_references, Service.route.
  rewrite H. repeat split; reflexivity.
Qed.

Lemma every_route_raises_key_error_witness :
  let svc := Service.init "/ws" in
  Service.get_server_for_file svc "/ws/main.py" = Raise (KeyError "java")
  /\ Service.run_linter (fun _ => mret (JDict [])) "/ws/main.py" svc
     = (Raise (KeyError "java"), svc)
  /\ Service.run_formatter Scenarios.env_ok "/ws/main.py" svc = (Raise (KeyError "java"), svc)
  /\ Service.get_definition Scenarios.env_ok "/ws/main.py" 0 0 svc
     = (Raise (KeyError "java"), svc)
  /\ Service.get_references Scenarios.env_ok "/ws/main.py" 0 0 svc
     = (Raise (KeyError "java"), svc).
Proof.
  apply (every_route_raises_key_error Scenarios.env_ok (fun _ => mret (JDict []))
           (Service.init "/ws") "/ws/main.py" 0 0).
  - exists (Session.init Python "/ws"). reflexivity.
  - exists (Session.init JavaScript "/ws"). reflexivity.
  - reflexivity.
Defined.

(** ** A backend that never answers *)



(** Being unresponsive only depends on the queue, the pipe and the schedule. *)
Lemma unresponsive_same_queues (st st' : manager) :
  response_queue st' = response_queue st ->
  inbox st' = inbox st ->
  schedule st' = schedule st ->
  unresponsive st -> unresponsive st'.
Proof. unfold unresponsive. now intros -> -> ->. Qed.

Lemma unresponsive_add_log (lvl : log_level) (ev : log_event) (st : manager) :
  unresponsive st -> unresponsive (add_log lvl ev st).
Proof. now apply unresponsive_same_queues. Qed.

Lemma unresponsive_set_write_queue (q : list message) (st : manager) :
  unresponsive st -> unresponsive (set_write_queue q st).
Proof. now apply unresponsive_same_queues. Qed.

Lemma unresponsive_set_running (b : bool) (st : manager) :
  unresponsive st -> unresponsive (set_running b st).
Proof. now apply unresponsive_same_queues. Qed.

Lemma unresponsive_set_reader_alive (b : bool) (st : manager) :
  unresponsive st -> unresponsive (set_reader_alive b st).
Proof. now apply unresponsive_same_queues. Qed.

Lemma unresponsive_new_process (p : option process) (st : manager) :
  unresponsive st -> unresponsive (set_inbox [] (set_server_process p st)).
Proof. unfold unresponsive. intros (Hq & _ & Hs). now destruct st. Qed.

Create HintDb unresponsive.
#[local] Hint Resolve unresponsive_add_log unresponsive_set_write_queue
  unresponsive_set_running unresponsive_set_reader_alive unresponsive_new_process
  : unresponsive.





Lemma start_launch_failure (env : os_env) (st : manager) (e : exn) :
  is_running st = false ->
  popen env (server_command (kind st)) (workspace_path st) = Raise e ->
  exists st', start env st = (Raise e, st').
Proof.
  intros Hrun Hpopen. unfold start. run_step. rewrite Hrun.
  eexists. erewrite run_try_raise.
  - rewrite (run_bind_ret _ _ _ _ _ (run_logger _ _ _)). reflexivity.
  - do 3 run_step. rewrite Hpopen. reflexivity.
Qed.



Lemma launch_add_log (env : os_env) (lvl : log_level) (ev : log_event) (st : manager) :
  launch env (add_log lvl ev st) = launch env st.
Proof. reflexivity. Qed.




(** ** After the launch nothing raises *)

Lemma put_request_sync_returns (method : string) (params : json) (st : manager) :
  exists request_id st', put_request_sync method params st = (Ret request_id, st').
Proof. do 2 eexists. reflexivity. Qed.

(** A synchronous request never raises: a missing answer is the empty dict. *)
Lemma sync_request_never_raises (method : string) (params : json) (st : manager) :
  exists m st', _send_request_sync method params st = (Ret m, st').
Proof.
  destruct (put_request_sync_returns method params st) as (request_id & st1 & E1).
  unfold _send_request_sync. rewrite (run_bind_ret _ _ _ _ _ E1). cbv beta.
  unfold wait_response_sync.
  destruct (response_queue_get st1) as [[m|] st2]; eauto.
Qed.

Lemma initialize_never_raises (env : os_env) (st : manager) :
  exists st', _initialize_lsp_server env st = (Ret tt, st').
Proof.
  unfold _initialize_lsp_server. run_step.
  destruct (sync_request_never_raises "initialize" (initialize_params env st) st)
    as (m & st1 & E1).
  rewrite (run_bind_ret _ _ _ _ _ E1). cbv beta.
  destruct (has (msg_result m)).
  - do 2 run_step. rewrite run_logger. eauto.
  - rewrite run_logger. eauto.
Qed.

Lemma start_lsp_communication_never_raises (env : os_env) (st : manager) :
  exists st', _start_lsp_communication env st = (Ret tt, st').
Proof.
  unfold _start_lsp_communication. run_step.
  destruct (server_process st).
  - do 2 run_step. apply initialize_never_raises.
  - rewrite run_logger. eauto.
Qed.

Lemma configure_server_never_raises (st : manager) :
  exists st', _configure_server st = (Ret tt, st').
Proof. unfold _configure_server. run_step. rewrite run_send_notification. eauto. Qed.

Lemma start_after_launch (env : os_env) (st : manager) (p : process) :
  is_running st = false ->
  popen env (server_command (kind st)) (workspace_path st) = Ret p ->
  exists st', start env st = (Ret tt, st').
Proof.
  intros Hrun Hpopen. unfold start. run_step. rewrite Hrun.
  set (st1 := add_log INFO (Note "language server started successfully")
                (set_inbox [] (set_server_process (Some p)
                   (add_log INFO (Note "Starting language server") st)))).
  destruct (start_lsp_communication_never_raises env st1) as (st2 & E2).
  destruct (configure_server_never_raises st2) as (st3 & E3).
  exists st3. apply run_try_ret. do 3 run_step. rewrite Hpopen. do 3 run_step.
  fold st1. now rewrite (run_bind_ret _ _ _ _ _ E2).
Qed.

Lemma ensure_running_after_launch (env : os_env) (st : manager) (p : process) :
  launch env st = Ret p ->
  exists st', ensure_running env st = (Ret tt, st').
Proof.
  intros Hlaunch. unfold ensure_running, launch in *. run_step.
  destruct (is_running st) eqn:Hrun.
  - rewrite run_mret. eauto.
  - eapply start_after_launch; eassumption.
Qed.

(** ** The formatter *)

(** Approach 1 never raises: the [try] block catches every exception. *)
Lemma lsp_formatting_never_raises (document_uri content : string) (st : manager) :
  exists attempt st', lsp_formatting document_uri content st = (Ret attempt, st').
Proof.
  unfold lsp_formatting, try_catch.
  match goal with |- context [match ?body st with _ => _ end] =>
    destruct (body st) as [[attempt|e] st1] end.
  - eauto.
  - rewrite (run_bind_ret _ _ _ _ _ (run_logger _ _ _)). cbv beta. rewrite run_mret. eauto.
Qed.

(** When approach 1 gives nothing, the result is that of approach 2: the
    fallback's output if it exits with 0, the original content otherwise. *)
Lemma run_formatter_fallback
  (env : os_env) (st st1 st2 : manager) (file_path content : string) :
  isfile env file_path = true ->
  open_document env file_path st = (Ret content, st1) ->
  lsp_formatting (_path_to_uri env file_path) content st1 = (Ret None, st2) ->
  fst (run_formatter env file_path st)
  = Ret match run_fallback env (kind st) (workspace_path st) file_path content with
        | Ret (0, stdout) => stdout
        | _ => content
        end.
Proof.
  intros Hfile Hopen Hlsp. unfold run_formatter. rewrite Hfile. cbn [negb].
  rewrite (run_bind_ret _ _ _ _ _ Hopen). cbv beta.
  rewrite (run_bind_ret _ _ _ _ _ Hlsp). cbv beta iota.
  pose proof (keeps_open_document env file_path st) as [Hk1 Hw1].
  rewrite Hopen in Hk1, Hw1. cbn [snd] in Hk1, Hw1.
  pose proof (keeps_lsp_formatting (_path_to_uri env file_path) content st1) as [Hk2 Hw2].
  rewrite Hlsp in Hk2, Hw2. cbn [snd] in Hk2, Hw2.
  unfold fallback_formatting. do 2 run_step.
  rewrite Hk2, Hk1, Hw2, Hw1.
  destruct (run_fallback env (kind st) (workspace_path st) file_path content)
    as [[returncode stdout]|e].
  - destruct returncode; reflexivity.
  - reflexivity.
Qed.

Lemma open_document_after_launch
  (env : os_env) (st : manager) (p : process) (file_path content : string) :
  launch env st = Ret p ->
  read_text env file_path = Ret content ->
  exists st', open_document env file_path st = (Ret content, st').
Proof.
  intros Hlaunch Hread. unfold open_document. run_step.
  destruct (ensure_running_after_launch env
              (add_log INFO (Note "Formatting file") st) p Hlaunch) as (st1 & E1).
  rewrite (run_bind_ret _ _ _ _ _ E1). cbv beta.
  rewrite Hread. do 3 run_step. rewrite run_mret. eauto.
Qed.

(** C7, as the specification states it, fails before the [try] blocks of
    [run_formatter] are reached: for an existing file whose fallback
    formatter exits with 1, [run_formatter] raises when the server cannot be
    launched, and it raises when the file cannot be read. *)
Lemma formatter_raises_before_the_try :
  isfile Scenarios.env_no_backend "/ws/a.js" = true
  /\ run_fallback Scenarios.env_no_backend JavaScript "/ws" "/ws/a.js" "hello world"
     = Ret (1, "")
  /\ fst (run_formatter Scenarios.env_no_backend "/ws/a.js"
            (Session.init JavaScript "/ws"))
     = Raise (OSError "No such file or directory")
  /\ isfile Scenarios.env_unreadable "/ws/a.js" = true
  /\ fst (run_formatter Scenarios.env_unreadable "/ws/a.js" Scenarios.ready)
     = Raise (OSError "Permission denied").
Proof. vm_compute. repeat split; reflexivity. Qed.

(** C7 (amended): for an existing file that can be read, on a manager whose
    server runs or can be launched: when approach 1 of [run_formatter], run
    after the document is opened, gives nothing (no response, no or an
    empty [result], or an exception while the edits are applied) and the
    fallback subprocess exits non-zero or cannot be run, [run_formatter]
    does not raise and returns the content read from the file. *)
Theorem failed_formatting_returns_original
  (env : os_env) (st : manager) (p : process) (file_path content : string) :
  isfile env file_path = true ->
  launch env st = Ret p ->
  read_text env file_path = Ret content ->
  fst (lsp_formatting (_path_to_uri env file_path) content
         (snd (open_document env file_path st))) = Ret None ->
  match run_fallback env (kind st) (workspace_path st) file_path content with
  | Ret (returncode, _) => returncode <> 0
  | Raise _ => True
  end ->
  fst (run_formatter env file_path st) = Ret content.
Proof.
  intros Hfile Hlaunch Hread Hlsp Hfallback.
  destruct (open_document_after_launch env st p file_path content Hlaunch Hread)
    as (st1 & Hopen).
  rewrite Hopen in Hlsp. cbn [snd] in Hlsp.
  destruct (lsp_formatting (_path_to_uri env file_path) content st1)
    as [attempt st2] eqn:E2.
  cbn [fst] in Hlsp. subst attempt.
  rewrite (run_formatter_fallback env st st1 st2 file_path content Hfile Hopen E2).
  destruct (run_fallback env (kind st) (workspace_path st) file_path content)
    as [[returncode stdout]|e]; [|reflexivity].
  destruct returncode; [contradiction | reflexivity | reflexivity].
Qed.

Lemma failed_formatting_returns_original_witness :
  fst (run_formatter Scenarios.env_ok "/ws/a.js" Scenarios.ready_with_bad_edit)
  = Ret "hello world".
Proof.
  apply (failed_formatting_returns_original Scenarios.env_ok
           Scenarios.ready_with_bad_edit Alive "/ws/a.js" "hello world").
  - reflexivity.
  - vm_compute. reflexivity.
  - reflexivity.
  - vm_compute. reflexivity.
  - vm_compute. discriminate.
Defined.

(** The exception that sends the session above to the fallback. *)
Example edit_past_the_end_raises :
  apply_text_edits "hello world" (JList [text_edit 5 0 5 1 "x"]) = Raise IndexError.
Proof. reflexivity. Qed.

(** When the backend answers with a well-placed edit, the edited text is
    returned and the fallback is not run. *)
Example formatting_applies_the_edit :
  fst (run_formatter Scenarios.env_ok "/ws/a.js" Scenarios.ready_with_edit)
  = Ret "hello moon".
Proof. vm_compute. reflexivity. Qed.

(** ** Operations against an unavailable backend *)








(** * Further properties *)

(** ** Frames: what the writer emits, the reader takes back *)

(** The stream that starts with a frame of the writer, laid out line by line. *)
Lemma frame_lines (content rest : string) :
  frame content +:+ rest
  = ("Content-Length: " +:+ str_int (len content) +:+ String CR EmptyString)
    +:+ String LF (String CR EmptyString +:+ String LF (content +:+ rest)).
Proof. unfold frame, header. now rewrite !append_assoc. Qed.

(** X1: what the reader of a manager whose language is not [python] takes
    from a frame that [_lsp_writer] wrote. The bytes handed to the decoder
    are the part of the body that the pipe holds when the body is read, and
    the remainder of the body stays in the stream; when the pipe holds the
    whole body, the body that was written is read back and the stream is
    left at the byte after it. *)
Theorem written_frame_read_back_as_delivered
  (language content rest : string) (more : nat) :
  language <> "python" ->
  _lsp_reader_iteration language more (frame content +:+ rest)
  = Dispatch (take_chars (Nat.min (String.length content) (S more)) content)
      (drop_chars (Nat.min (String.length content) (S more)) content +:+ rest)
  /\ ((String.length content <= S more)%nat ->
      _lsp_reader_iteration language more (frame content +:+ rest)
      = Dispatch content rest).
Proof.
  intros Hlang. rewrite frame_lines. unfold _lsp_reader_iteration.
  rewrite (header_line_read _ _ (len_nonnegative content)).
  rewrite (header_line_parses _ (len_nonnegative content)).
  case_bool_decide as Hline.
  { pose proof (header_line_parses _ (len_nonnegative content)) as H.
    rewrite Hline in H. discriminate. }
  rewrite (readline_line (String CR EmptyString) _ eq_refl).
  rewrite bool_decide_eq_false_2 by exact Hlang.
  split.
  - now rewrite read_delivered.
  - intros Hmore. now rewrite (read_body more content rest Hmore).
Qed.

Lemma written_frame_read_back_as_delivered_witness :
  _lsp_reader_iteration "javascript" 0 (frame "{}" +:+ Scenarios.next_frame)
  = Dispatch "{" ("}" +:+ Scenarios.next_frame)
  /\ _lsp_reader_iteration "javascript" 1 (frame "{}" +:+ Scenarios.next_frame)
     = Dispatch "{}" Scenarios.next_frame.
Proof.
  split.
  - apply (written_frame_read_back_as_delivered "javascript" "{}" Scenarios.next_frame 0).
    discriminate.
  - apply (written_frame_read_back_as_delivered "javascript" "{}" Scenarios.next_frame 1).
    + discriminate.
    + cbn [String.length]. lia.
Defined.

Lemma length_append (s t : string) :
  String.length (s +:+ t) = (String.length s + String.length t)%nat.
Proof.
  induction s as [|c s IH]; [reflexivity|].
  rewrite append_String. cbn [String.length]. now rewrite IH.
Qed.

Lemma readline_rest_length (s : string) :
  (String.length (snd (readline s)) <= String.length s)%nat.
Proof.
  induction s as [|c s IH]; [reflexivity|]. cbn [readline].
  case_bool_decide; cbn [snd String.length]; [lia|].
  destruct (readline s) as [l r]. cbn [snd String.length] in *. lia.
Qed.

Lemma readline_consumes (s : string) :
  s <> EmptyString ->
  (String.length (snd (readline s)) < String.length s)%nat.
Proof.
  destruct s as [|c s]; [done|]. intros _. cbn [readline].
  pose proof (readline_rest_length s) as H.
  case_bool_decide; cbn [snd String.length]; [lia|].
  destruct (readline s) as [l r]. cbn [snd String.length] in *. lia.
Qed.

Lemma length_take_drop (n : nat) (s : string) :
  (String.length (take_chars n s) + String.length (drop_chars n s))%nat = String.length s.
Proof.
  revert s. induction n as [|n IH]; intros s; [now destruct s|].
  destruct s as [|c s]; [reflexivity|]. cbn [take_chars drop_chars String.length].
  now rewrite <- (IH s).
Qed.

(** X2: with the [python] language the reader skips a second line after the
    header, so a frame in the writer's own format is not read back: at least
    one byte of what follows the blank line is lost, however many bytes the
    pipe delivers. *)
Theorem python_reader_swallows_a_line (content rest : string) (more : nat) :
  content <> EmptyString ->
  exists body left,
    _lsp_reader_iteration "python" more (frame content +:+ rest) = Dispatch body left
    /\ len body + len left < len content + len rest.
Proof.
  intros Hne. rewrite frame_lines. unfold _lsp_reader_iteration.
  rewrite (header_line_read _ _ (len_nonnegative content)).
  rewrite (header_line_parses _ (len_nonnegative content)).
  case_bool_decide as Hline.
  { pose proof (header_line_parses _ (len_nonnegative content)) as H.
    rewrite Hline in H. discriminate. }
  rewrite (readline_line (String CR EmptyString) _ eq_refl).
  rewrite bool_decide_eq_true_2 by reflexivity.
  assert (Hshrink : (String.length (snd (readline (content +:+ rest)))
                     < String.length content + String.length rest)%nat).
  { rewrite <- length_append. apply readline_consumes.
    destruct content; [done | now rewrite append_String]. }
  set (s3 := snd (readline (content +:+ rest))) in *.
  unfold read. destruct (Z.ltb_spec (len content) 0) as [Hneg|_].
  { pose proof (len_nonnegative content). lia. }
  cbv zeta. eexists _, _. split; [reflexivity|].
  pose proof (length_take_drop (Nat.min (Z.to_nat (len content)) (S more)) s3).
  unfold len in *. lia.
Qed.

Lemma python_reader_swallows_a_line_witness :
  exists body left,
    _lsp_reader_iteration "python" 1 (frame "{}" +:+ Scenarios.next_frame)
    = Dispatch body left
    /\ len body + len left < len "{}" + len Scenarios.next_frame.
Proof.
  apply (python_reader_swallows_a_line "{}" Scenarios.next_frame 1). discriminate.
Defined.

(** ** The edit applier: order, whole documents, positions off the end *)

Lemma sort_key_text_edit (l c l' c' : Z) (t : string) :
  sort_key (text_edit l c l' c' t) = Ret (-1 * l).
Proof. reflexivity. Qed.

(** The order in which two edits are applied only depends on their keys;
    equal keys keep the order received. *)
Lemma sorted_edits_pair (e1 e2 : json) (k1 k2 : Z) :
  sort_key e1 = Ret k1 -> sort_key e2 = Ret k2 ->
  sorted_edits (JList [e1; e2]) = Ret (if k1 <=? k2 then [e1; e2] else [e2; e1]).
Proof.
  intros H1 H2. unfold sorted_edits.
  cbv beta iota delta [iterate mbind result_bind bind map_result mret result_ret].
  rewrite H1, H2.
  unfold sorted. cbn -[Z.leb].
  now destruct (k1 <=? k2).
Qed.

(** X3: two edits whose start lines differ are applied in the same order,
    the one further down first, whichever way round the backend lists
    them; the result of the applier does not depend on their order. *)
Theorem edits_on_different_lines_commute
  (content t1 t2 : string) (l1 c1 l1' c1' l2 c2 l2' c2' : Z) :
  l1 <> l2 ->
  apply_text_edits content
    (JList [text_edit l1 c1 l1' c1' t1; text_edit l2 c2 l2' c2' t2])
  = apply_text_edits content
      (JList [text_edit l2 c2 l2' c2' t2; text_edit l1 c1 l1' c1' t1])
  /\ sorted_edits (JList [text_edit l1 c1 l1' c1' t1; text_edit l2 c2 l2' c2' t2])
     = Ret (if l1 <? l2
            then [text_edit l2 c2 l2' c2' t2; text_edit l1 c1 l1' c1' t1]
            else [text_edit l1 c1 l1' c1' t1; text_edit l2 c2 l2' c2' t2]).
Proof.
  intros Hne.
  pose proof (sorted_edits_pair _ _ _ _ (sort_key_text_edit l1 c1 l1' c1' t1)
                (sort_key_text_edit l2 c2 l2' c2' t2)) as H12.
  pose proof (sorted_edits_pair _ _ _ _ (sort_key_text_edit l2 c2 l2' c2' t2)
                (sort_key_text_edit l1 c1 l1' c1' t1)) as H21.
  unfold apply_text_edits. rewrite H12, H21.
  destruct (Z.leb_spec (-1 * l1) (-1 * l2)), (Z.leb_spec (-1 * l2) (-1 * l1)),
    (Z.ltb_spec l1 l2); try lia; split; reflexivity.
Qed.

Lemma edits_on_different_lines_commute_witness :
  apply_text_edits "hello world"
    (JList [text_edit 0 0 0 5 "goodbye"; text_edit 1 0 1 0 "moon"])
  = apply_text_edits "hello world"
      (JList [text_edit 1 0 1 0 "moon"; text_edit 0 0 0 5 "goodbye"])
  /\ sorted_edits (JList [text_edit 0 0 0 5 "goodbye"; text_edit 1 0 1 0 "moon"])
     = Ret [text_edit 1 0 1 0 "moon"; text_edit 0 0 0 5 "goodbye"].
Proof.
  apply (edits_on_different_lines_commute "hello world" "goodbye" "moon"
           0 0 0 5 1 0 1 0).
  discriminate.
Defined.

Lemma length_rev_app (s t : string) :
  String.length (String.rev_app s t) = (String.length s + String.length t)%nat.
Proof.
  revert t. induction s as [|c s IH]; intros t; [reflexivity|].
  cbn [String.rev_app String.length]. rewrite IH. cbn [String.length]. lia.
Qed.

Lemma len_rev (s : string) : len (String.rev s) = len s.
Proof. unfold len, String.rev. rewrite length_rev_app. cbn [String.length]. lia. Qed.

Lemma len_String (c : ascii) (s : string) : len (String c s) = 1 + len s.
Proof. unfold len. cbn [String.length]. lia. Qed.

(** The lines of [splitlines(True)] add up to the text. *)
Lemma splitlines_total_len_bounded (n : nat) (cur s : string) :
  (String.length s <= n)%nat ->
  total_len (splitlines_aux cur s) = len cur + len s.
Proof.
  revert cur s. induction n as [|n IH]; intros cur s Hn.
  - destruct s; [|cbn in Hn; lia]. cbn [splitlines_aux].
    destruct cur as [|c cur]; [reflexivity|].
    cbn [total_len]. rewrite len_rev. unfold len. cbn [String.length]. lia.
  - destruct s as [|c s]; cbn [splitlines_aux].
    { destruct cur as [|c cur]; [reflexivity|].
      cbn [total_len]. rewrite len_rev. unfold len. cbn [String.length]. lia. }
    cbn [String.length] in Hn.
    destruct (is_linebreak c).
    + destruct s as [|c' s].
      * cbn [total_len]. rewrite len_rev, !len_String. unfold len. cbn. lia.
      * cbn [String.length] in Hn.
        destruct (bool_decide (c = CR) && bool_decide (c' = LF)); cbn [total_len].
        -- rewrite len_rev, IH, !len_String by lia. unfold len; cbn; lia.
        -- rewrite len_rev, IH, !len_String by (cbn [String.length]; lia).
           unfold len; cbn; lia.
    + rewrite IH, !len_String by lia. lia.
Qed.

Lemma splitlines_total_len (s : string) :
  total_len (splitlines_keepends s) = len s.
Proof.
  unfold splitlines_keepends.
  now rewrite (splitlines_total_len_bounded (String.length s)) by lia.
Qed.

(** Summing the lengths of the lines from index [length pre] on. *)
Lemma sum_len_lines_from (pre lines : list string) :
  sum_len_lines (pre ++ lines) (seq (length pre) (length lines)) = Ret (total_len lines).
Proof.
  revert pre. induction lines as [|l lines IH]; intros pre; [reflexivity|].
  cbn [length seq sum_len_lines total_len].
  rewrite (list_lookup_middle pre lines l (length pre) eq_refl).
  replace (pre ++ l :: lines) with ((pre ++ [l]) ++ lines) by now rewrite <- app_assoc.
  specialize (IH (pre ++ [l])). rewrite length_app in IH. cbn [length] in IH.
  replace (length pre + 1)%nat with (S (length pre)) in IH by lia.
  now rewrite IH.
Qed.

Lemma sum_len_all_lines (lines : list string) :
  sum_len_lines lines (range (Z.of_nat (length lines))) = Ret (total_len lines).
Proof. unfold range. rewrite Nat2Z.id. apply (sum_len_lines_from [] lines). Qed.

Lemma sum_len_lines_past_end (lines : list string) (indices : list nat) :
  (exists i, i ∈ indices /\ lines !! i = None) ->
  sum_len_lines lines indices = Raise IndexError.
Proof.
  intros (i & Hin & Hnone). induction indices as [|j indices IH].
  - now apply elem_of_nil in Hin.
  - cbn [sum_len_lines]. destruct (lines !! j) as [l|] eqn:Hj; [|reflexivity].
    apply elem_of_cons in Hin as [->|Hin]; [congruence|].
    now rewrite (IH Hin).
Qed.

Lemma drop_chars_all (s : string) : drop_chars (String.length s) s = EmptyString.
Proof. induction s as [|c s IH]; [reflexivity | exact IH]. Qed.

Lemma append_empty_r (s : string) : s +:+ EmptyString = s.
Proof. induction s as [|c s IH]; [reflexivity | now rewrite append_String, IH]. Qed.

(** The offset of a position, and the effect of one well-formed edit. *)
Lemma offset_of_position (lines : list string) (line character : Z) :
  offset_of lines (JDict [("line", JInt line); ("character", JInt character)])
  = match sum_len_lines lines (range line) with
    | Ret before => Ret (before + character)
    | Raise e => Raise e
    end.
Proof. reflexivity. Qed.

Lemma apply_edit_text_edit (content new_text : string) (sl sc el ec : Z) :
  apply_edit content (text_edit sl sc el ec new_text)
  = match offset_of (splitlines_keepends content)
            (JDict [("line", JInt sl); ("character", JInt sc)]) with
    | Ret start_offset =>
        match offset_of (splitlines_keepends content)
                (JDict [("line", JInt el); ("character", JInt ec)]) with
        | Ret end_offset =>
            Ret (slice_to content start_offset +:+ new_text
                 +:+ slice_from content end_offset)
        | Raise e => Raise e
        end
    | Raise e => Raise e
    end.
Proof. reflexivity. Qed.

Lemma sorted_edits_single (e : json) (k : Z) :
  sort_key e = Ret k -> sorted_edits (JList [e]) = Ret [e].
Proof.
  intros H. unfold sorted_edits.
  cbv beta iota delta [iterate mbind result_bind bind map_result mret result_ret].
  now rewrite H.
Qed.

Lemma apply_edits_single (content : string) (e : json) :
  apply_edits_in_order content [e] = apply_edit content e.
Proof.
  cbn [apply_edits_in_order]. unfold mbind, result_bind, bind.
  now destruct (apply_edit content e).
Qed.

Lemma apply_text_edits_single (content : string) (e : json) (k : Z) :
  sort_key e = Ret k -> apply_text_edits content (JList [e]) = apply_edit content e.
Proof.
  intros H. unfold apply_text_edits. rewrite (sorted_edits_single e k H).
  exact (apply_edits_single content e).
Qed.

(** X4: one edit that runs from the start of the text to the start of the
    line after the last one replaces the whole text: the applier returns the
    edit's [newText], whatever the text was. *)
Theorem whole_document_edit_replaces_text (content new_text : string) :
  apply_text_edits content
    (JList [text_edit 0 0 (Z.of_nat (length (splitlines_keepends content))) 0 new_text])
  = Ret new_text.
Proof.
  rewrite (apply_text_edits_single _ _ _ (sort_key_text_edit _ _ _ _ _)).
  rewrite apply_edit_text_edit, !offset_of_position.
  rewrite sum_len_all_lines, splitlines_total_len.
  change (sum_len_lines (splitlines_keepends content) (range 0)) with (Ret (A := Z) 0).
  cbv beta iota. unfold slice_to, slice_from. rewrite !Z.add_0_r.
  destruct (Z.ltb_spec (len content) 0) as [H|_];
    [pose proof (len_nonnegative content); lia|].
  change (0 <? 0) with false. cbv iota.
  unfold len. rewrite Nat2Z.id, drop_chars_all, append_empty_r.
  now destruct content.
Qed.

(** X5: an edit that starts below the last line of the text makes the
    applier raise [IndexError], whatever else the edit says; in
    [run_formatter] this sends control to the fallback formatter. *)
Theorem edit_below_last_line_raises
  (content new_text : string) (sl sc el ec : Z) :
  Z.of_nat (length (splitlines_keepends content)) < sl ->
  apply_text_edits content (JList [text_edit sl sc el ec new_text]) = Raise IndexError.
Proof.
  intros Hsl.
  rewrite (apply_text_edits_single _ _ _ (sort_key_text_edit _ _ _ _ _)).
  rewrite apply_edit_text_edit, offset_of_position.
  rewrite sum_len_lines_past_end; [reflexivity|].
  exists (length (splitlines_keepends content)). split.
  - unfold range. apply elem_of_seq. lia.
  - now apply lookup_ge_None.
Qed.

Lemma edit_below_last_line_raises_witness :
  apply_text_edits "hello world" (JList [text_edit 5 0 5 1 "x"]) = Raise IndexError.
Proof.
  apply (edit_below_last_line_raises "hello world" "x" 5 0 5 1).
  vm_compute. reflexivity.
Defined.

(** ** Paths and URIs *)

Lemma startswith_append (prefix rest : string) :
  startswith (prefix +:+ rest) prefix = true.
Proof.
  induction prefix as [|c prefix IH]; [now destruct rest|].
  rewrite append_String. cbn [startswith].
  now rewrite bool_decide_eq_true_2, IH.
Qed.

(** X6: turning a path into a URI with [_path_to_uri] and back with
    [_uri_to_path] gives the absolute path. *)
Theorem uri_round_trip (env : os_env) (path : string) :
  _uri_to_path (JStr (_path_to_uri env path)) = Ret (JStr (abspath env path)).
Proof.
  unfold _uri_to_path, _path_to_uri. rewrite startswith_append.
  now change (slice_from ("file://" +:+ abspath env path) 7) with (abspath env path).
Qed.

(** A value that does not start with [file://] comes back as it is. *)
Lemma uri_to_path_other (other : string) :
  startswith other "file://" = false -> _uri_to_path (JStr other) = Ret (JStr other).
Proof. intros H. unfold _uri_to_path. now rewrite H. Qed.

(** ** Request ids and callbacks *)

Lemma str_int_inj (m n : Z) : str_int m = str_int n -> m = n.
Proof. apply pretty_Z_inj. Qed.

Lemma callbacks_shrink_refl (st : manager) : callbacks_shrink st st.
Proof. split; [lia | auto]. Qed.

Lemma callbacks_shrink_trans (st1 st2 st3 : manager) :
  callbacks_shrink st1 st2 -> callbacks_shrink st2 st3 -> callbacks_shrink st1 st3.
Proof. intros [H1 H2] [H3 H4]. split; [lia | auto]. Qed.

Lemma callbacks_shrink_fields (st st' : manager) :
  next_request_id st' = next_request_id st ->
  request_callbacks st' = request_callbacks st ->
  callbacks_shrink st st'.
Proof. intros Hn Hc. split; [lia | now rewrite Hc]. Qed.

Lemma callbacks_allocated_shrink (st st' : manager) :
  callbacks_shrink st st' -> callbacks_allocated st -> callbacks_allocated st'.
Proof.
  intros [Hnext Hsub] [Hone H]. split; [lia|]. intros key cb Hkey.
  destruct (H key cb (Hsub key cb Hkey)) as (n & -> & Hn).
  exists n. split; [reflexivity | lia].
Qed.

Lemma handle_notification_shrink (st st' : manager) (n : message) :
  _handle_notification st n = Ret st' -> callbacks_shrink st st'.
Proof.
  unfold _handle_notification. intros H.
  destruct (eq_str _ _); [|injection H as <-; apply callbacks_shrink_refl].
  destruct (get _ "type" _) as [message_type|]; [|discriminate].
  destruct (get _ "message" _) as [text|]; [|discriminate].
  cbn [bind] in H.
  destruct (log_levels_get message_type) as [level|]; [|discriminate].
  injection H as <-. now apply callbacks_shrink_fields.
Qed.

Lemma reader_deliver_shrink (st : manager) (m : message) :
  callbacks_shrink st (reader_deliver st m).
Proof.
  unfold reader_deliver, _process_lsp_message.
  destruct (has (msg_id m) && has (msg_result m)).
  - destruct (request_callbacks st !! _) eqn:Hcb.
    + split; [destruct st; cbn; lia|]. intros key cb.
      destruct st. cbn. intros Hkey. apply lookup_delete_Some in Hkey. tauto.
    + now apply callbacks_shrink_fields.
  - destruct (has (msg_method m) && negb (has (msg_id m))).
    + destruct (_handle_notification st m) as [st'|e] eqn:H.
      * now apply handle_notification_shrink in H.
      * now apply callbacks_shrink_fields.
    + apply callbacks_shrink_refl.
Qed.

Lemma reader_until_response_shrink (frames : list message) (st : manager) :
  callbacks_shrink st (reader_until_response frames st).
Proof.
  revert st. induction frames as [|m frames IH]; intros st; cbn [reader_until_response].
  - destruct (response_queue st); now apply callbacks_shrink_fields.
  - destruct (response_queue st); [|now apply callbacks_shrink_fields].
    destruct (reader_can_run st); [|now apply callbacks_shrink_fields].
    eapply callbacks_shrink_trans; [apply reader_deliver_shrink | apply IH].
Qed.

Lemma wait_response_sync_shrink (method : string) (st : manager) :
  callbacks_shrink st (snd (wait_response_sync method st)).
Proof.
  unfold wait_response_sync, response_queue_get. cbv zeta.
  set (st1 := set_schedule _ st).
  assert (H1 : callbacks_shrink st st1) by (now apply callbacks_shrink_fields).
  set (st2 := reader_until_response _ st1).
  pose proof (reader_until_response_shrink (inbox st1 ++ default [] (head (schedule st))) st1)
    as H2. fold st2 in H2.
  pose proof (callbacks_shrink_trans _ _ _ H1 H2) as H.
  destruct (response_queue st2); cbn [snd];
    (eapply callbacks_shrink_trans; [exact H|]); now apply callbacks_shrink_fields.
Qed.

Lemma put_request_sync_shrink (method : string) (params : json) (st : manager) :
  callbacks_shrink st (snd (put_request_sync method params st)).
Proof.
  split.
  - change (next_request_id st <= next_request_id st + 1). lia.
  - intros key cb H. exact H.
Qed.

Lemma send_request_sync_shrink (method : string) (params : json) (st : manager) :
  callbacks_shrink st (snd (_send_request_sync method params st)).
Proof.
  unfold _send_request_sync. rewrite run_bind.
  pose proof (put_request_sync_shrink method params st) as H1.
  destruct (put_request_sync method params st) as [[request_id|e] st1];
    cbn [snd] in *; [|exact H1].
  eapply callbacks_shrink_trans; [exact H1 | apply wait_response_sync_shrink].
Qed.

Lemma next_id_is_free (st : manager) :
  callbacks_allocated st -> request_callbacks st !! str_int (next_request_id st) = None.
Proof.
  intros [_ H]. destruct (request_callbacks st !! _) as [cb|] eqn:Hkey; [|reflexivity].
  destruct (H _ _ Hkey) as (n & Heq & Hn). apply str_int_inj in Heq. lia.
Qed.

(** X7: every key of the callback table is the decimal form of an id that
    was allocated earlier. Requests, notifications and inbound messages keep
    this, so the id a new request takes is never one for which a callback is
    still registered. *)
Theorem callback_ids_are_allocated
  (st : manager) (method : string) (params : json) (cb : callback) (m : message) :
  callbacks_allocated st ->
  callbacks_allocated (snd (_send_request_async method params cb st))
  /\ callbacks_allocated (snd (_send_request_sync method params st))
  /\ callbacks_allocated (snd (_send_notification method params st))
  /\ callbacks_allocated (reader_deliver st m)
  /\ request_callbacks st !! str_int (next_request_id st) = None.
Proof.
  intros H. split; [|split; [|split; [|split]]].
  - destruct H as [Hone H]. split.
    + change (1 <= next_request_id st + 1). lia.
    + intros key cb'.
      change (<[str_int (next_request_id st) := cb]> (request_callbacks st) !! key = Some cb'
              -> exists n, key = str_int n /\ 1 <= n < next_request_id st + 1).
      intros Hkey. apply lookup_insert_Some in Hkey as [[<- _]|[_ Hkey]].
      * exists (next_request_id st). split; [reflexivity | lia].
      * destruct (H key cb' Hkey) as (n & -> & Hn). exists n. split; [done|lia].
  - eapply callbacks_allocated_shrink; [apply send_request_sync_shrink | exact H].
  - eapply callbacks_allocated_shrink; [|exact H]. now apply callbacks_shrink_fields.
  - eapply callbacks_allocated_shrink; [apply reader_deliver_shrink | exact H].
  - now apply next_id_is_free.
Qed.

Lemma init_callbacks_allocated (k : backend) (workspace : string) :
  callbacks_allocated (Session.init k workspace).
Proof. split; [cbn; lia|]. intros key cb H. cbn in H. now rewrite lookup_empty in H. Qed.

Lemma callback_ids_are_allocated_witness :
  let st := Session.init JavaScript "/ws" in
  callbacks_allocated (snd (_send_request_async "shutdown" (JDict []) "on_done" st))
  /\ callbacks_allocated (snd (_send_request_sync "shutdown" (JDict []) st))
  /\ callbacks_allocated (snd (_send_notification "exit" (JDict []) st))
  /\ callbacks_allocated (reader_deliver st Scenarios.method_not_found)
  /\ request_callbacks st !! str_int (next_request_id st) = None.
Proof.
  exact (callback_ids_are_allocated (Session.init JavaScript "/ws") "shutdown" (JDict [])
           "on_done" Scenarios.method_not_found
           (init_callbacks_allocated JavaScript "/ws")).
Defined.

(** X8: an asynchronous request followed by the response that carries its
    id, as a string or as a number: the callback is invoked once, with that
    response, the callback table is as before the request, and nothing is
    queued for synchronous callers. A second copy of the response finds no
    callback and goes to the queue of synchronous responses. *)
Theorem async_response_completes_callback
  (st : manager) (method : string) (params : json) (cb : callback)
  (i : rpc_id) (r : json) :
  callbacks_allocated st ->
  str_id i = str_int (next_request_id st) ->
  let answer := Message (Some i) None None (Some r) None in
  let st1 := snd (_send_request_async method params cb st) in
  let st2 := reader_deliver st1 answer in
  let st3 := reader_deliver st2 answer in
  request_callbacks st1 !! str_int (next_request_id st) = Some cb
  /\ invoked st2 = invoked st ++ [(cb, answer)]
  /\ request_callbacks st2 = request_callbacks st
  /\ response_queue st2 = response_queue st
  /\ invoked st3 = invoked st2
  /\ response_queue st3 = response_queue st ++ [answer].
Proof.
  intros Halloc Hid answer st1 st2 st3.
  pose proof (next_id_is_free st Halloc) as Hfree.
  destruct st as [k ws p cbs next rq wq run ra ib sch inv lg].
  cbn [next_request_id request_callbacks invoked response_queue] in *.
  assert (H1 : st1 = Manager k ws p (<[str_int next := cb]> cbs) (next + 1) rq
                       (wq ++ [request (str_int next) method params]) run ra ib sch inv lg)
    by reflexivity.
  assert (H2 : st2 = Manager k ws p cbs (next + 1) rq
                       (wq ++ [request (str_int next) method params]) run ra ib sch
                       (inv ++ [(cb, answer)]) lg).
  { subst st2. rewrite H1. unfold reader_deliver, _process_lsp_message.
    change (msg_id answer) with (Some i). change (msg_result answer) with (Some r).
    cbn [has andb default from_option id request_callbacks]. rewrite Hid.
    rewrite lookup_insert_eq. cbn. now rewrite delete_insert_id. }
  assert (H3 : st3 = Manager k ws p cbs (next + 1) (rq ++ [answer])
                       (wq ++ [request (str_int next) method params]) run ra ib sch
                       (inv ++ [(cb, answer)]) lg).
  { subst st3. rewrite H2. unfold reader_deliver, _process_lsp_message.
    change (msg_id answer) with (Some i). change (msg_result answer) with (Some r).
    cbn [has andb default from_option id request_callbacks]. rewrite Hid.
    rewrite Hfree. reflexivity. }
  rewrite H1, H2, H3. cbn. now rewrite lookup_insert_eq.
Qed.

Lemma async_response_completes_callback_witness :
  let st := Session.init JavaScript "/ws" in
  let answer := Message (Some (IdInt 1)) None None (Some JNull) None in
  let st1 := snd (_send_request_async "shutdown" (JDict []) "on_done" st) in
  let st2 := reader_deliver st1 answer in
  let st3 := reader_deliver st2 answer in
  request_callbacks st1 !! str_int (next_request_id st) = Some "on_done"
  /\ invoked st2 = invoked st ++ [("on_done", answer)]
  /\ request_callbacks st2 = request_callbacks st
  /\ response_queue st2 = response_queue st
  /\ invoked st3 = invoked st2
  /\ response_queue st3 = response_queue st ++ [answer].
Proof.
  exact (async_response_completes_callback (Session.init JavaScript "/ws") "shutdown"
           (JDict []) "on_done" (IdInt 1) JNull
           (init_callbacks_allocated JavaScript "/ws") eq_refl).
Defined.

(** ** Lookups and formatting when the backend answers *)

Lemma answered_with_add_log (lvl : log_level) (ev : log_event) (st : manager) (m : message) :
  answered_with st m -> answered_with (add_log lvl ev st) m.
Proof. intros H. exact H. Qed.

Lemma answered_with_set_write_queue (q : list message) (st : manager) (m : message) :
  answered_with st m -> answered_with (set_write_queue q st) m.
Proof. intros H. exact H. Qed.

(** The synchronous request of such a session returns [m]. *)
Lemma sync_request_is_answered (method : string) (params : json) (st : manager) (m : message) :
  answered_with st m ->
  exists st', _send_request_sync method params st = (Ret m, st').
Proof.
  destruct st as [k ws p cbs next rq wq run ra ib sch inv lg].
  unfold answered_with.
  cbn [is_running server_process running reader_alive response_queue inbox schedule
       request_callbacks].
  intros (Hp & -> & -> & -> & -> & (later & ->) & Hid & Hres & Hcb).
  destruct p as [[|code]|]; try discriminate Hp.
  set (st1 := Manager k ws (Some Alive) cbs (next + 1) []
                (wq ++ [request (str_int next) method params]) true true []
                ([m] :: later) inv lg).
  assert (Hdeliver : reader_deliver (set_schedule later st1) m
                     = Manager k ws (Some Alive) cbs (next + 1) [m]
                         (wq ++ [request (str_int next) method params]) true true []
                         later inv lg).
  { unfold reader_deliver, _process_lsp_message. rewrite Hid, Hres. cbn [andb].
    change (request_callbacks (set_schedule later st1)) with cbs.
    now rewrite Hcb. }
  eexists. unfold _send_request_sync. rewrite run_bind.
  change (put_request_sync method params ?s) with (Ret (str_int next), st1).
  cbv beta iota.
  unfold wait_response_sync, response_queue_get. cbv zeta.
  change (inbox (set_schedule (tail (schedule st1)) st1) ++ default [] (head (schedule st1)))
    with [m].
  change (tail (schedule st1)) with later.
  cbn [reader_until_response].
  change (response_queue (set_schedule later st1)) with (@nil message). cbv iota.
  change (reader_can_run (set_schedule later st1)) with true. cbv iota.
  rewrite Hdeliver. reflexivity.
Qed.

Lemma ensure_running_when_running (env : os_env) (st : manager) :
  is_running st = true -> ensure_running env st = (Ret tt, st).
Proof. intros H. unfold ensure_running. run_step. now rewrite H. Qed.

Lemma answered_with_is_running (st : manager) (m : message) :
  answered_with st m -> is_running st = true.
Proof. now intros [H _]. Qed.

Lemma location_entry_of_location (path : string) (range : json) :
  location_entry (location_of path range) = Ret (location_entry_of path range).
Proof.
  unfold location_entry, location_of.
  change (get (JDict [("uri", JStr ("file://" +:+ path)); ("range", range)]) "uri" (JStr ""))
    with (Ret (JStr ("file://" +:+ path))).
  change (get (JDict [("uri", JStr ("file://" +:+ path)); ("range", range)]) "range" (JDict []))
    with (Ret range).
  cbv beta iota delta [mbind result_bind bind].
  unfold _uri_to_path. rewrite startswith_append.
  now change (slice_from ("file://" +:+ path) 7) with path.
Qed.

Lemma location_entries_of_locations (locations : list (string * json)) :
  map_result location_entry (map (fun l => location_of (fst l) (snd l)) locations)
  = Ret (map (fun l => location_entry_of (fst l) (snd l)) locations).
Proof.
  induction locations as [|[path range] locations IH]; [reflexivity|].
  cbn [map map_result fst snd]. rewrite location_entry_of_location.
  cbv beta iota delta [mbind result_bind bind]. now rewrite IH.
Qed.

(** What the two lookups compute from the response they receive. *)
Lemma get_definition_answered
  (env : os_env) (st : manager) (m : message) (file_path : string) (line character : Z) :
  answered_with st m ->
  fst (get_definition env file_path line character st)
  = match default JNull (msg_result m) with
    | JList l =>
        match map_result location_entry l with
        | Ret locations => Ret (JDict [("locations", JList locations)])
        | Raise e => Raise e
        end
    | JDict d =>
        match location_entry (JDict d) with
        | Ret entry => Ret (JDict [("locations", JList [entry])])
        | Raise e => Raise e
        end
    | _ => Ret (JDict [("locations", JList [])])
    end.
Proof.
  intros H. unfold get_definition. run_step.
  rewrite (run_bind_ret _ _ _ _ _ (ensure_running_when_running env _
             (answered_with_is_running _ m (answered_with_add_log INFO _ st m H)))).
  cbv beta zeta.
  match goal with |- context [_send_request_sync ?method ?params] =>
    destruct (sync_request_is_answered method params _ m
                (answered_with_add_log INFO (Note "Getting definition") st m H))
      as (st' & E) end.
  rewrite (run_bind_ret _ _ _ _ _ E). cbv beta.
  destruct (default JNull (msg_result m)) as [| | | |l|d]; try reflexivity.
  - unfold lift. rewrite run_bind. destruct (map_result location_entry l); reflexivity.
  - unfold lift. rewrite run_bind. destruct (location_entry (JDict d)); reflexivity.
Qed.

Lemma get_references_answered
  (env : os_env) (st : manager) (m : message) (file_path : string) (line character : Z) :
  answered_with st m ->
  fst (get_references env file_path line character st)
  = match iterate (default (JList []) (msg_result m)) with
    | Ret items =>
        match map_result location_entry items with
        | Ret references => Ret (JList references)
        | Raise e => Raise e
        end
    | Raise e => Raise e
    end.
Proof.
  intros H. unfold get_references. run_step.
  rewrite (run_bind_ret _ _ _ _ _ (ensure_running_when_running env _
             (answered_with_is_running _ m (answered_with_add_log INFO _ st m H)))).
  cbv beta zeta.
  match goal with |- context [_send_request_sync ?method ?params] =>
    destruct (sync_request_is_answered method params _ m
                (answered_with_add_log INFO (Note "Getting references") st m H))
      as (st' & E) end.
  rewrite (run_bind_ret _ _ _ _ _ E). cbv beta zeta.
  unfold lift. rewrite run_bind.
  destruct (iterate (default (JList []) (msg_result m))) as [items|e]; [|reflexivity].
  cbv beta iota. rewrite run_bind.
  destruct (map_result location_entry items); reflexivity.
Qed.

(** X9: when the backend answers [null], which the protocol allows for both
    requests, [get_definition] returns no location and [get_references]
    raises [TypeError]: it iterates over the result without a check. *)
Theorem null_result_of_lookups
  (env : os_env) (st : manager) (m : message) (file_path : string) (line character : Z) :
  answered_with st m ->
  msg_result m = Some JNull ->
  fst (get_definition env file_path line character st)
  = Ret (JDict [("locations", JList [])])
  /\ fst (get_references env file_path line character st)
     = Raise (TypeError "not iterable").
Proof.
  intros H Hnull.
  rewrite (get_definition_answered env st m), (get_references_answered env st m) by exact H.
  rewrite Hnull. split; reflexivity.
Qed.

(** X10: when the backend answers with a list of locations, both lookups
    return one entry per location, in the same order, with the [file://]
    URI turned into a path and the range passed on unchanged. *)
Theorem locations_are_converted
  (env : os_env) (st : manager) (m : message) (file_path : string) (line character : Z)
  (locations : list (string * json)) :
  answered_with st m ->
  msg_result m = Some (JList (map (fun l => location_of (fst l) (snd l)) locations)) ->
  fst (get_definition env file_path line character st)
  = Ret (JDict [("locations",
                 JList (map (fun l => location_entry_of (fst l) (snd l)) locations))])
  /\ fst (get_references env file_path line character st)
     = Ret (JList (map (fun l => location_entry_of (fst l) (snd l)) locations)).
Proof.
  intros H Hres.
  rewrite (get_definition_answered env st m), (get_references_answered env st m) by exact H.
  rewrite Hres. cbn [default from_option id iterate].
  rewrite location_entries_of_locations. split; reflexivity.
Qed.

(** A single location, which [textDocument/definition] may also answer, is
    returned as a list of one entry. *)
Lemma single_location_is_listed
  (env : os_env) (st : manager) (m : message) (file_path path : string) (line character : Z)
  (range : json) :
  answered_with st m ->
  msg_result m = Some (location_of path range) ->
  fst (get_definition env file_path line character st)
  = Ret (JDict [("locations", JList [location_entry_of path range])]).
Proof.
  intros H Hres. rewrite (get_definition_answered env st m) by exact H.
  rewrite Hres. cbn [default from_option id]. unfold location_of at 1.
  fold (location_of path range). now rewrite location_entry_of_location.
Qed.

Lemma null_result_of_lookups_witness :
  fst (get_definition Scenarios.env_ok "/ws/a.js" 3 7
         (set_schedule [[Scenarios.response "2" JNull]] Scenarios.ready))
  = Ret (JDict [("locations", JList [])])
  /\ fst (get_references Scenarios.env_ok "/ws/a.js" 3 7
            (set_schedule [[Scenarios.response "2" JNull]] Scenarios.ready))
     = Raise (TypeError "not iterable").
Proof.
  apply (null_result_of_lookups Scenarios.env_ok
           (set_schedule [[Scenarios.response "2" JNull]] Scenarios.ready)
           (Scenarios.response "2" JNull) "/ws/a.js" 3 7).
  - repeat split; try (vm_compute; reflexivity). exists []. vm_compute. reflexivity.
  - reflexivity.
Defined.

Lemma locations_are_converted_witness :
  let answer :=
    Scenarios.response "2"
      (JList [location_of "/ws/b.js" (JInt 1); location_of "/ws/c.js" (JInt 2)]) in
  let st := set_schedule [[answer]] Scenarios.ready in
  fst (get_definition Scenarios.env_ok "/ws/a.js" 3 7 st)
  = Ret (JDict [("locations",
                 JList [location_entry_of "/ws/b.js" (JInt 1);
                        location_entry_of "/ws/c.js" (JInt 2)])])
  /\ fst (get_references Scenarios.env_ok "/ws/a.js" 3 7 st)
     = Ret (JList [location_entry_of "/ws/b.js" (JInt 1);
                   location_entry_of "/ws/c.js" (JInt 2)]).
Proof.
  intros answer st.
  apply (locations_are_converted Scenarios.env_ok st answer "/ws/a.js" 3 7
           [("/ws/b.js", JInt 1); ("/ws/c.js", JInt 2)]).
  - repeat split; try (vm_compute; reflexivity). exists []. vm_compute. reflexivity.
  - reflexivity.
Defined.

(** The document is opened without disturbing the pending answer. *)
Lemma open_document_answered
  (env : os_env) (st : manager) (m : message) (file_path content : string) :
  answered_with st m ->
  read_text env file_path = Ret content ->
  exists st', open_document env file_path st = (Ret content, st') /\ answered_with st' m.
Proof.
  intros H Hread. unfold open_document. run_step.
  rewrite (run_bind_ret _ _ _ _ _ (ensure_running_when_running env _
             (answered_with_is_running _ m (answered_with_add_log INFO _ st m H)))).
  cbv beta. rewrite Hread. do 3 run_step. rewrite run_mret.
  eexists. split; [reflexivity|].
  apply answered_with_set_write_queue, answered_with_add_log, H.
Qed.

(** Approach 1 when the backend answers: the edited text if the result is
    truthy and its edits apply, nothing otherwise. *)
Lemma lsp_formatting_answered (document_uri content : string) (st : manager) (m : message) :
  answered_with st m ->
  exists st',
    lsp_formatting document_uri content st
    = (Ret match msg_result m with
           | Some edits =>
               if truthy edits then
                 match apply_text_edits content edits with
                 | Ret new_content => Some new_content
                 | Raise _ => None
                 end
               else None
           | None => None
           end, st').
Proof.
  intros H.
  destruct (sync_request_is_answered "textDocument/formatting"
    (JDict [("textDocument", JDict [("uri", JStr document_uri)]);
            ("options", JDict [("tabSize", JInt (tab_size (kind st)));
                               ("insertSpaces", JBool true)])])
    st m H) as (st1 & E1).
  unfold lsp_formatting.
  destruct (msg_result m) as [edits|] eqn:Hres.
  - destruct (truthy edits) eqn:Htruthy.
    + destruct (apply_text_edits content edits) as [new_content|e] eqn:Happly.
      * eexists. apply run_try_ret. run_step.
        rewrite (run_bind_ret _ _ _ _ _ E1). cbv beta.
        rewrite Hres, Htruthy, Happly. do 2 run_step. apply run_mret.
      * eexists. erewrite run_try_raise.
        -- run_step. apply run_mret.
        -- run_step. rewrite (run_bind_ret _ _ _ _ _ E1). cbv beta.
           rewrite Hres, Htruthy, Happly. reflexivity.
    + eexists. apply run_try_ret. run_step.
      rewrite (run_bind_ret _ _ _ _ _ E1). cbv beta.
      rewrite Hres, Htruthy. run_step. apply run_mret.
  - eexists. apply run_try_ret. run_step.
    rewrite (run_bind_ret _ _ _ _ _ E1). cbv beta.
    rewrite Hres. run_step. apply run_mret.
Qed.

(** X11: when the backend answers the formatting request, [run_formatter]
    returns the content with the edits applied if the result is a non-empty
    value whose edits apply; if the result is empty or applying it raises,
    it returns what the fallback formatter gives: its output when it exits
    with 0, the unchanged content otherwise. *)
Theorem formatting_with_an_answer
  (env : os_env) (st : manager) (m : message) (file_path content : string) :
  answered_with st m ->
  isfile env file_path = true ->
  read_text env file_path = Ret content ->
  fst (run_formatter env file_path st)
  = Ret (let fallback :=
           match run_fallback env (kind st) (workspace_path st) file_path content with
           | Ret (0, stdout) => stdout
           | _ => content
           end in
         match msg_result m with
         | Some edits =>
             if truthy edits then
               match apply_text_edits content edits with
               | Ret new_content => new_content
               | Raise _ => fallback
               end
             else fallback
         | None => fallback
         end).
Proof.
  intros H Hfile Hread.
  destruct (open_document_answered env st m file_path content H Hread) as (st1 & E1 & H1).
  destruct (lsp_formatting_answered (_path_to_uri env file_path) content st1 m H1)
    as (st2 & E2).
  cbv zeta.
  destruct (msg_result m) as [edits|];
    [destruct (truthy edits);
       [destruct (apply_text_edits content edits) as [new_content|e]|]|];
    try exact (run_formatter_fallback env st st1 st2 file_path content Hfile E1 E2).
  unfold run_formatter. rewrite Hfile. cbn [negb].
  rewrite (run_bind_ret _ _ _ _ _ E1). cbv beta.
  rewrite (run_bind_ret _ _ _ _ _ E2). reflexivity.
Qed.

Lemma formatting_with_an_answer_witness :
  fst (run_formatter Scenarios.env_ok "/ws/a.js" Scenarios.ready_with_edit)
  = Ret "hello moon".
Proof.
  apply (formatting_with_an_answer Scenarios.env_ok Scenarios.ready_with_edit
           (Scenarios.response "2" (JList [Scenarios.edit_world])) "/ws/a.js" "hello world").
  - repeat split; try (vm_compute; reflexivity). exists []. vm_compute. reflexivity.
  - reflexivity.
  - reflexivity.
Defined.

(** ** Starting a session *)

(** X12: [start] raises exactly when the server process cannot be launched,
    and then with the exception of [subprocess.Popen]. Whatever happens
    after the launch, a handshake without answer included, is only logged:
    [start] returns normally. *)
Theorem start_raises_only_launch_errors (env : os_env) (st : manager) :
  fst (start env st)
  = match launch env st with
    | Ret _ => Ret tt
    | Raise e => Raise e
    end.
Proof.
  unfold launch. destruct (is_running st) eqn:Hrun.
  - unfold start. run_step. now rewrite Hrun.
  - destruct (popen env (server_command (kind st)) (workspace_path st)) as [p|e] eqn:Hpopen.
    + destruct (start_after_launch env st p Hrun Hpopen) as (st' & E). now rewrite E.
    + destruct (start_launch_failure env st e Hrun Hpopen) as (st' & E). now rewrite E.
Qed.

(** ** The workspace manager *)

Lemma language_of_extension (ext language : string) :
  Service.items_get Workspace.extension_to_language ext = Some language ->
  language ∈ ["python"; "javascript"; "java"] /\ language <> "".
Proof.
  unfold Workspace.extension_to_language. cbn [Service.items_get].
  repeat case_bool_decide; intros [= <-]; split; try discriminate; set_solver.
Qed.

Lemma elem_of_get_files (w : Workspace.workspace_manager) (language file : string) :
  file ∈ Workspace.get_files_by_language w language
  <-> exists files, Workspace.files_by_language w !! language = Some files /\ file ∈ files.
Proof.
  unfold Workspace.get_files_by_language.
  destruct (Workspace.files_by_language w !! language) as [files|].
  - rewrite elem_of_elements. split; [eauto|]. now intros (? & [= <-] & ?).
  - split; [intros H; inversion H|]. now intros (? & [=] & _).
Qed.

Lemma tracks_languages_categorize (w : Workspace.workspace_manager) (file_path : string) :
  Workspace.tracks_languages w ->
  Workspace.tracks_languages (Workspace._categorize_file w file_path).
Proof.
  intros H language Hin. unfold Workspace._categorize_file.
  destruct (Service.items_get _ _) as [l|]; [|now apply H].
  destruct (negb _); [|now apply H].
  destruct (Workspace.files_by_language w !! l) eqn:E; [|now apply H].
  cbn [Workspace.files_by_language].
  destruct (decide (l = language)) as [->|Hne].
  - rewrite lookup_insert_eq. eauto.
  - rewrite lookup_insert_ne by exact Hne. now apply H.
Qed.

Lemma tracks_languages_remove (w : Workspace.workspace_manager) (file_path : string) :
  Workspace.tracks_languages w ->
  Workspace.tracks_languages (Workspace.remove_file w file_path).
Proof.
  intros H language Hin. unfold Workspace.remove_file. cbn [Workspace.files_by_language].
  rewrite lookup_fmap. destruct (H language Hin) as [files ->]. eauto.
Qed.

(** What [_categorize_file] adds. *)
Lemma categorize_file_lists (w : Workspace.workspace_manager) (file_path language file : string) :
  Workspace.tracks_languages w ->
  file ∈ Workspace.get_files_by_language (Workspace._categorize_file w file_path) language
  <-> file ∈ Workspace.get_files_by_language w language
      \/ (file = file_path /\ Workspace.get_language_for_file file_path = Some language).
Proof.
  intros H. rewrite !elem_of_get_files.
  unfold Workspace._categorize_file, Workspace.get_language_for_file.
  destruct (Service.items_get _ _) as [l|] eqn:Hext.
  - destruct (language_of_extension _ _ Hext) as [Hin Hne].
    rewrite bool_decide_eq_false_2 by exact Hne. cbn [negb].
    destruct (H l Hin) as [files Hfiles]. rewrite Hfiles.
    cbn [Workspace.files_by_language].
    destruct (decide (l = language)) as [->|Hl].
    + rewrite lookup_insert_eq. split.
      * intros (files' & [= <-] & Hfile). apply elem_of_union in Hfile as [Hfile|Hfile].
        -- left. eauto.
        -- right. apply elem_of_singleton in Hfile. auto.
      * intros [(files' & Hfiles' & Hfile)|[-> _]].
        -- rewrite Hfiles in Hfiles'. injection Hfiles' as <-.
           eexists. split; [reflexivity|]. apply elem_of_union. now left.
        -- eexists. split; [reflexivity|]. apply elem_of_union. right.
           now apply elem_of_singleton.
    + rewrite lookup_insert_ne by exact Hl. split; [auto|].
      intros [Hold|[_ [= Heq]]]; [exact Hold | contradiction].
  - split; [auto|]. intros [Hold|[_ [=]]]. exact Hold.
Qed.

Lemma scan_lists (files : list string) (w : Workspace.workspace_manager)
  (language file : string) :
  Workspace.tracks_languages w ->
  Workspace.tracks_languages (foldl Workspace._categorize_file w files)
  /\ (file ∈ Workspace.get_files_by_language (foldl Workspace._categorize_file w files) language
      <-> file ∈ Workspace.get_files_by_language w language
          \/ (file ∈ files /\ Workspace.get_language_for_file file = Some language)).
Proof.
  revert w. induction files as [|f files IH]; intros w H.
  - cbn [foldl]. split; [exact H|]. split; [auto|].
    intros [Hold|[Hin _]]; [exact Hold | inversion Hin].
  - cbn [foldl].
    destruct (IH (Workspace._categorize_file w f) (tracks_languages_categorize w f H))
      as [Htracks Hiff].
    split; [exact Htracks|]. rewrite Hiff, categorize_file_lists by exact H.
    rewrite elem_of_cons. split.
    + intros [[Hold|[Heq Hlang]]|[Hin Hlang]]; [auto | subst file; auto | auto].
    + intros [Hold|[[Heq|Hin] Hlang]]; [auto | subst file; auto | auto].
Qed.

Lemma tracks_languages_new (workspace : string) :
  Workspace.tracks_languages
    (Workspace.MakeWorkspaceManager workspace
       (<["python" := ∅]> (<["javascript" := ∅]> (<["java" := ∅]> ∅)))).
Proof.
  intros language Hin. cbn [Workspace.files_by_language].
  repeat (apply elem_of_cons in Hin as [->|Hin]); [| | |inversion Hin];
    vm_compute; eauto.
Qed.

Lemma new_workspace_is_empty (workspace language file : string) :
  file ∈ Workspace.get_files_by_language
           (Workspace.MakeWorkspaceManager workspace
              (<["python" := ∅]> (<["javascript" := ∅]> (<["java" := ∅]> ∅)))) language
  -> False.
Proof.
  rewrite elem_of_get_files. cbn [Workspace.files_by_language].
  intros (files & Hfiles & Hfile).
  repeat (apply lookup_insert_Some in Hfiles as [[_ <-]|[_ Hfiles]];
          [now apply not_elem_of_empty in Hfile|]).
  now rewrite lookup_empty in Hfiles.
Qed.

(** X13: the constructor lists under a language exactly the files that the
    walk over the workspace directory finds and whose lower-cased extension
    belongs to that language. *)
Theorem scan_lists_files_by_extension
  (fs : Workspace.file_system) (path : string) (w : Workspace.workspace_manager)
  (language file : string) :
  Workspace.init fs path = Ret w ->
  file ∈ Workspace.get_files_by_language w language
  <-> file ∈ Workspace.walk fs (Workspace.abspath fs path)
      /\ Workspace.get_language_for_file file = Some language.
Proof.
  unfold Workspace.init. destruct (negb _); [discriminate|]. intros [= <-].
  unfold Workspace._scan_workspace. cbn [Workspace.workspace_path].
  destruct (scan_lists (Workspace.walk fs (Workspace.abspath fs path)) _ language file
              (tracks_languages_new (Workspace.abspath fs path))) as [_ ->].
  split; [|auto]. intros [Hold|H]; [|exact H].
  now apply new_workspace_is_empty in Hold.
Qed.

Lemma scan_lists_files_by_extension_witness :
  "/ws/web/index.TS"
  ∈ Workspace.get_files_by_language WorkspaceScenarios.scanned "javascript".
Proof.
  apply (scan_lists_files_by_extension WorkspaceScenarios.fs_small "/ws"
           WorkspaceScenarios.scanned "javascript" "/ws/web/index.TS").
  - reflexivity.
  - split; [|reflexivity]. vm_compute. repeat constructor.
Defined.

Lemma remove_file_lists (w : Workspace.workspace_manager) (file_path language file : string) :
  file ∈ Workspace.get_files_by_language (Workspace.remove_file w file_path) language
  <-> file ∈ Workspace.get_files_by_language w language /\ file <> file_path.
Proof.
  rewrite !elem_of_get_files. unfold Workspace.remove_file.
  cbn [Workspace.files_by_language]. rewrite lookup_fmap.
  destruct (Workspace.files_by_language w !! language) as [files|]; cbn [fmap option_fmap option_map].
  - split.
    + intros (files' & [= <-] & Hfile). apply elem_of_difference in Hfile as [Hfile Hne].
      split; [eauto|]. intros ->. apply Hne. now apply elem_of_singleton.
    + intros [(files' & [= <-] & Hfile) Hne]. eexists. split; [reflexivity|].
      apply elem_of_difference. split; [exact Hfile|].
      intros Heq. apply elem_of_singleton in Heq. contradiction.
  - split; [now intros (? & [=] & _) | now intros [(? & [=] & _) _]].
Qed.

Lemma reachable_tracks_languages
  (fs : Workspace.file_system) (path : string) (w : Workspace.workspace_manager) :
  Workspace.reachable fs path w -> Workspace.tracks_languages w.
Proof.
  induction 1 as [w Hinit|w f _ IH|w f _ IH].
  - unfold Workspace.init in Hinit. destruct (negb _); [discriminate|].
    injection Hinit as <-. unfold Workspace._scan_workspace.
    now apply (scan_lists _ _ "" ""), tracks_languages_new.
  - now apply tracks_languages_categorize.
  - now apply tracks_languages_remove.
Qed.

(** X14: in every object that the constructor, [add_file] and
    [remove_file] can produce, a file is listed only under the language of
    its own lower-cased extension; so no file is listed under two
    languages. *)
Theorem tracked_files_match_their_extension
  (fs : Workspace.file_system) (path : string) (w : Workspace.workspace_manager)
  (language file : string) :
  Workspace.reachable fs path w ->
  file ∈ Workspace.get_files_by_language w language ->
  Workspace.get_language_for_file file = Some language.
Proof.
  intros Hreach. revert language file.
  induction Hreach as [w Hinit|w f Hreach IH|w f Hreach IH]; intros language file Hfile.
  - unfold Workspace.init in Hinit. destruct (negb _); [discriminate|].
    injection Hinit as <-. unfold Workspace._scan_workspace in Hfile.
    apply (scan_lists _ _ language file (tracks_languages_new _)) in Hfile
      as [Hold|[_ Hlang]]; [|exact Hlang].
    now apply new_workspace_is_empty in Hold.
  - apply categorize_file_lists in Hfile as [Hold|[-> Hlang]];
      [now apply IH | exact Hlang | now apply (reachable_tracks_languages fs path)].
  - apply remove_file_lists in Hfile as [Hold _]. now apply IH.
Qed.

Lemma tracked_files_match_their_extension_witness :
  Workspace.get_language_for_file "/ws/web/view.jsx" = Some "javascript".
Proof.
  apply (tracked_files_match_their_extension WorkspaceScenarios.fs_small "/ws"
           (Workspace.remove_file
              (Workspace.add_file WorkspaceScenarios.scanned "/ws/lib/Main.java")
              "/ws/app.py")
           "javascript" "/ws/web/view.jsx").
  - apply Workspace.reach_remove, Workspace.reach_add, Workspace.reach_init. reflexivity.
  - vm_compute. repeat constructor.
Defined.

(** X15: adding a file that was not tracked and removing it again gives
    the listing of every language back. *)
Theorem add_then_remove_restores_listing
  (fs : Workspace.file_system) (path : string) (w : Workspace.workspace_manager)
  (file_path language file : string) :
  Workspace.reachable fs path w ->
  (forall l, file_path ∉ Workspace.get_files_by_language w l) ->
  file ∈ Workspace.get_files_by_language
           (Workspace.remove_file (Workspace.add_file w file_path) file_path) language
  <-> file ∈ Workspace.get_files_by_language w language.
Proof.
  intros Hreach Hnew.
  rewrite remove_file_lists. unfold Workspace.add_file.
  rewrite categorize_file_lists by now apply (reachable_tracks_languages fs path).
  split.
  - intros [[Hold|[Heq _]] Hne]; [exact Hold | contradiction].
  - intros Hold. split; [now left|]. intros ->. now apply (Hnew language).
Qed.

Lemma add_then_remove_restores_listing_witness :
  "/ws/app.py"
  ∈ Workspace.get_files_by_language
      (Workspace.remove_file
         (Workspace.add_file WorkspaceScenarios.scanned "/ws/new.js") "/ws/new.js")
      "python".
Proof.
  apply (add_then_remove_restores_listing WorkspaceScenarios.fs_small "/ws"
           WorkspaceScenarios.scanned "/ws/new.js" "python" "/ws/app.py").
  - apply Workspace.reach_init. reflexivity.
  - intros l Hin. unfold WorkspaceScenarios.scanned, Workspace._scan_workspace in Hin.
    cbn [Workspace.workspace_path] in Hin.
    apply (scan_lists _ _ l _ (tracks_languages_new "/ws")) in Hin as [Hold|[Hwalk _]].
    + now apply new_workspace_is_empty in Hold.
    + vm_compute in Hwalk.
      repeat (apply elem_of_cons in Hwalk as [Hwalk|Hwalk]; [discriminate|]).
      inversion Hwalk.
  - vm_compute. repeat constructor.
Defined.

(** X16: [is_file_in_workspace] compares characters, not path components:
    it accepts exactly the paths whose absolute form begins with the
    characters of the workspace path. *)
Theorem in_workspace_is_a_prefix_test
  (fs : Workspace.file_system) (w : Workspace.workspace_manager) (file_path : string) :
  Workspace.is_file_in_workspace fs w file_path = true
  <-> exists rest, Workspace.abspath fs file_path = Workspace.workspace_path w +:+ rest.
Proof.
  unfold Workspace.is_file_in_workspace. split.
  - generalize (Workspace.abspath fs file_path) as s.
    induction (Workspace.workspace_path w) as [|c prefix IH]; intros s H.
    + exists s. now rewrite append_empty.
    + destruct s as [|c' s]; [discriminate|]. cbn [startswith] in H.
      apply andb_prop in H as [Hc Hs]. apply bool_decide_eq_true_1 in Hc as ->.
      destruct (IH s Hs) as [rest ->]. exists rest. now rewrite append_String.
  - intros [rest ->]. apply startswith_append.
Qed.

(** So a file of a sibling directory whose name continues that of the
    workspace counts as a file of the workspace. *)
Example sibling_directory_is_in_workspace :
  Workspace.is_file_in_workspace WorkspaceScenarios.fs_small WorkspaceScenarios.scanned
    "/ws-backup/app.py" = true.
Proof. reflexivity. Qed.

(** ** The linter *)

Lemma linter_open_document
  (env : os_env) (st : manager) (p : process) (file_path content : string) :
  launch env st = Ret p ->
  read_text env file_path = Ret content ->
  exists st', Linter.open_document env file_path st = (Ret tt, st')
              /\ same_manager st st'.
Proof.
  intros Hlaunch Hread. unfold Linter.open_document. run_step.
  destruct (ensure_running_after_launch env
              (add_log INFO (Note "Running linter on file") st) p Hlaunch) as (st1 & E1).
  pose proof (keeps_ensure_running env (add_log INFO (Note "Running linter on file") st))
    as Hsame.
  rewrite E1 in Hsame. cbn [snd] in Hsame.
  rewrite (run_bind_ret _ _ _ _ _ E1). cbv beta.
  rewrite Hread. do 2 run_step. rewrite run_send_notification.
  eexists. split; [reflexivity|]. exact Hsame.
Qed.

(** Parsing the output gives a result dict, or raises what [json.loads]
    raised when that is no decode error. *)
Lemma parse_output_outcome
  (json_loads : string -> result json) (str_exn : exn -> string)
  (stdout : string) (st : manager) :
  (exists d st',
     Linter.parse_output json_loads str_exn stdout st = (Ret (JDict d), st')
     /\ is_Some (dict_get d "issues")
     /\ exists b, dict_get d "success" = Some (JBool b))
  \/ (exists e st', Linter.parse_output json_loads str_exn stdout st = (Raise e, st')).
Proof.
  unfold Linter.parse_output.
  destruct (bool_decide (Linter.strip stdout = "")); cbv iota.
  - left. do 2 eexists. split; [apply run_try_ret; reflexivity|].
    split; [eexists; reflexivity | eexists; reflexivity].
  - destruct (json_loads stdout) as [results|e] eqn:Hloads.
    + left. do 2 eexists.
      split; [apply run_try_ret; rewrite run_bind, run_lift_ret; reflexivity|].
      split; [eexists; reflexivity | eexists; reflexivity].
    + assert (Hbody :
        (lift (Raise e) ≫= fun results : json =>
           mret (JDict [("issues", results); ("success", JBool true)])) st
        = (Raise e, st)) by (rewrite run_bind; reflexivity).
      rewrite (run_try_raise _ _ _ _ _ Hbody).
      destruct e as [key|name|msg|msg| |msg];
        try (right; do 2 eexists; reflexivity).
      left. do 2 eexists. split.
      * rewrite run_bind, run_logger. reflexivity.
      * split; [eexists; reflexivity | eexists; reflexivity].
Qed.

Lemma run_external_returns
  (env : os_env) (json_loads : string -> result json) (str_exn : exn -> string)
  (file_path : string) (st : manager) :
  exists d st',
    Linter.run_external env json_loads str_exn file_path st = (Ret (JDict d), st')
    /\ is_Some (dict_get d "issues")
    /\ exists b, dict_get d "success" = Some (JBool b).
Proof.
  unfold Linter.run_external. do 2 run_step.
  destruct (subprocess_run env (Linter.linter_cmd (kind st) ++ [file_path])
              (Some (workspace_path st)) None) as [[returncode stdout]|e] eqn:Hrun.
  - assert (exists st1,
      (match kind st with
       | Python =>
           if negb (returncode =? 0) && negb (returncode =? 1)
           then logger ERROR (Failure "Pylint error")
           else mret tt
       | _ => mret tt
       end) st = (Ret tt, st1)) as (st1 & Elog).
    { destruct (kind st); [destruct (negb _ && negb _)| |]; eexists; reflexivity. }
    destruct (parse_output_outcome json_loads str_exn stdout st1)
      as [(d & st2 & E2 & Hd)|(e & st2 & E2)].
    + exists d, st2. split; [|exact Hd]. apply run_try_ret.
      rewrite run_bind, run_lift_ret. cbv beta iota.
      rewrite (run_bind_ret _ _ _ _ _ Elog). exact E2.
    + do 2 eexists. split.
      * erewrite run_try_raise.
        -- rewrite run_bind, run_logger. reflexivity.
        -- rewrite run_bind, run_lift_ret. cbv beta iota.
           rewrite (run_bind_ret _ _ _ _ _ Elog). exact E2.
      * split; [eexists; reflexivity | eexists; reflexivity].
  - do 2 eexists. split.
    + erewrite run_try_raise; [|rewrite run_bind; reflexivity].
      rewrite run_bind, run_logger. reflexivity.
    + split; [eexists; reflexivity | eexists; reflexivity].
Qed.

(** X17: once the file exists, the server can be launched and the file can
    be read, [run_linter] never raises: whatever the linter process and the
    JSON decoder do, the caller gets a dict with an [issues] member and a
    boolean [success] member. *)
Theorem linter_failures_are_reported_in_the_result
  (env : os_env) (json_loads : string -> result json) (str_exn : exn -> string)
  (st : manager) (p : process) (file_path content : string) :
  isfile env file_path = true ->
  launch env st = Ret p ->
  read_text env file_path = Ret content ->
  exists d,
    fst (Linter.run_linter env json_loads str_exn file_path st) = Ret (JDict d)
    /\ is_Some (dict_get d "issues")
    /\ exists b, dict_get d "success" = Some (JBool b).
Proof.
  intros Hfile Hlaunch Hread. unfold Linter.run_linter.
  rewrite Hfile. cbn [negb].
  destruct (linter_open_document env st p file_path content Hlaunch Hread)
    as (st1 & E1 & _).
  destruct (run_external_returns env json_loads str_exn file_path st1)
    as (d & st2 & E2 & Hd).
  exists d. split; [|exact Hd].
  rewrite (run_bind_ret _ _ _ _ _ E1). cbv beta. now rewrite E2.
Qed.

Lemma linter_failures_are_reported_in_the_result_witness :
  exists d,
    fst (Linter.run_linter Scenarios.env_ok (fun _ => Raise (TypeError "decoder"))
           (fun _ => "") "/ws/a.py" (Session.init Python "/ws")) = Ret (JDict d)
    /\ is_Some (dict_get d "issues")
    /\ exists b, dict_get d "success" = Some (JBool b).
Proof.
  apply (linter_failures_are_reported_in_the_result Scenarios.env_ok
           (fun _ => Raise (TypeError "decoder")) (fun _ => "")
           (Session.init Python "/ws") Alive "/ws/a.py" "hello world").
  - reflexivity.
  - reflexivity.
  - reflexivity.
Defined.



(** ** The command line *)

(** The service that the constructor builds has no [java] manager. *)
Lemma new_service_has_no_java_route (workspace file_path : string) :
  Service.get_server_for_file (Service.init workspace) file_path = Raise (KeyError "java").
Proof. reflexivity. Qed.

Lemma new_service_routes_nothing {A} (workspace file_path : string) (op : M A) :
  Service.route file_path op (Service.init workspace)
  = (Raise (KeyError "java"), Service.init workspace).
Proof. unfold Service.route. now rewrite new_service_has_no_java_route. Qed.

(** X19: with a workspace that is a directory, the [lint], [format],
    [definition] and [references] actions of the command line print nothing
    and end with exit code 1, whatever the file and the position. *)
Theorem file_actions_exit_with_code_1
  (env : os_env) (isdir : string -> bool) (walk : string -> list string)
  (json_loads : string -> result json) (str_exn : exn -> string)
  (args : Cli.namespace) :
  isdir (abspath env (abspath env (Cli.workspace args))) = true ->
  Cli.action args ∈ [Some "lint"; Some "format"; Some "definition"; Some "references"] ->
  Cli.main env isdir walk json_loads str_exn args = Ret (Cli.Exit 1 []).
Proof.
  intros Hdir Haction. unfold Cli.main, Cli.new_service, Workspace.init.
  cbn [Workspace.abspath Workspace.isdir]. rewrite Hdir. cbn [negb].
  unfold Cli.run_action, Cli.action_is, Service.run_linter, Service.run_formatter,
    Service.get_definition, Service.get_references.
  rewrite !new_service_routes_nothing.
  repeat (apply elem_of_cons in Haction as [->|Haction]; [reflexivity|]).
  inversion Haction.
Qed.

Lemma file_actions_exit_with_code_1_witness :
  Cli.main Scenarios.env_ok (fun _ => true) (fun _ => []) (fun _ => Ret JNull)
    (fun _ => "") (Cli.Namespace "/ws" (Some "format") "/ws/a.py" 0 0 false)
  = Ret (Cli.Exit 1 []).
Proof.
  apply (file_actions_exit_with_code_1 Scenarios.env_ok (fun _ => true) (fun _ => [])
           (fun _ => Ret JNull) (fun _ => "")
           (Cli.Namespace "/ws" (Some "format") "/ws/a.py" 0 0 false)).
  - reflexivity.
  - cbn [Cli.action]. repeat constructor.
Defined.

(** X20: the service is built outside the [try] block of [main]: with a
    workspace that is no directory [main] gives no exit code at all, the
    [ValueError] of the workspace manager leaves it, whatever the action. *)
Theorem missing_workspace_escapes_main
  (env : os_env) (isdir : string -> bool) (walk : string -> list string)
  (json_loads : string -> result json) (str_exn : exn -> string)
  (args : Cli.namespace) :
  isdir (abspath env (abspath env (Cli.workspace args))) = false ->
  Cli.main env isdir walk json_loads str_exn args
  = Raise (ValueError "Workspace path is not a directory").
Proof.
  intros Hdir. unfold Cli.main, Cli.new_service, Workspace.init.
  cbn [Workspace.abspath Workspace.isdir]. now rewrite Hdir.
Qed.

Lemma missing_workspace_escapes_main_witness :
  Cli.main Scenarios.env_ok (fun _ => false) (fun _ => []) (fun _ => Ret JNull)
    (fun _ => "") (Cli.Namespace "/nowhere" None "" 0 0 false)
  = Raise (ValueError "Workspace path is not a directory").
Proof.
  apply (missing_workspace_escapes_main Scenarios.env_ok (fun _ => false) (fun _ => [])
           (fun _ => Ret JNull) (fun _ => "")
           (Cli.Namespace "/nowhere" None "" 0 0 false)).
  reflexivity.
Defined.

(** X21: [MultiLanguageServer.start] starts the managers one after the
    other, the Python one first: when its server cannot be launched, the
    exception leaves [start] and the JavaScript manager is left as the
    constructor built it, not started. *)
Theorem service_start_stops_at_first_failure
  (env : os_env) (workspace : string) (e : exn) :
  popen env (server_command Python) workspace = Raise e ->
  fst (Cli.start env (Service.init workspace)) = Raise e
  /\ Service.server_managers (snd (Cli.start env (Service.init workspace))) !! "javascript"
     = Some (Session.init JavaScript workspace).
Proof.
  intros Hpopen.
  destruct (start_launch_failure env (Session.init Python workspace) e eq_refl Hpopen)
    as (st' & E).
  unfold Cli.start. cbn [Cli.start_managers]. unfold Service.on_manager.
  change (Service.server_managers (Service.init workspace) !! "python")
    with (Some (Session.init Python workspace)).
  cbv iota. rewrite E. cbn [fst snd Service.server_managers].
  split; [reflexivity|].
  rewrite lookup_insert_ne by discriminate. reflexivity.
Qed.

Lemma service_start_stops_at_first_failure_witness :
  fst (Cli.start Scenarios.env_no_backend (Service.init "/ws"))
  = Raise (OSError "No such file or directory")
  /\ Service.server_managers (snd (Cli.start Scenarios.env_no_backend (Service.init "/ws")))
       !! "javascript"
     = Some (Session.init JavaScript "/ws").
Proof.
  apply (service_start_stops_at_first_failure Scenarios.env_no_backend "/ws"
           (OSError "No such file or directory")).
  reflexivity.
Defined.
